(** * Tendermint light client: misbehaviour handling

    A shallow embedding of
    [x/ibc/light-clients/07-tendermint/types/misbehaviour_handle.go]:
    [CheckMisbehaviourAndUpdateState] and [checkMisbehaviourHeader].

    Go's machine integers are integers of [Z] with the wrap-around written
    out; the function bodies are written in a small monad that threads the
    callee's local copy of the client state and a log of the calls made to
    collaborators, and that supports Go's early [return]. *)

From Stdlib Require Import ZArith List String Ascii DecimalString Bool Lia.
Import ListNotations.
Open Scope Z_scope.

(** ** Machine integers *)

Module Int64.

Definition modulus : Z := 2 ^ 64.
Definition half_modulus : Z := 2 ^ 63.
Definition max_signed : Z := 2 ^ 63 - 1.
Definition min_signed : Z := - 2 ^ 63.

Definition is_uint64 (x : Z) : Prop := 0 <= x < modulus.
Definition is_int64 (x : Z) : Prop := min_signed <= x <= max_signed.

(** [a - b] on two [uint64] operands. *)
Definition usub (a b : Z) : Z := (a - b) mod modulus.

(** The conversion [int64(x)] of a [uint64] value: same bits, read in
    two's complement. *)
Definition of_unsigned (x : Z) : Z :=
  let y := x mod modulus in
  if y <? half_modulus then y else y - modulus.

End Int64.

(** ** Time

    [time.Time] is an instant, here a number of nanoseconds; a
    [time.Duration] is an [int64] number of nanoseconds.  [Time.Sub]
    saturates at the ends of the [Duration] range. *)

Definition Time := Z.
Definition Duration := Z.

Definition maxDuration : Duration := Int64.max_signed.
Definition minDuration : Duration := Int64.min_signed.

Definition Time_Sub (t u : Time) : Duration :=
  let d := t - u in
  if d <? minDuration then minDuration
  else if maxDuration <? d then maxDuration
  else d.

(** ** Heights *)

(** Modelled from the spec: the declaration of [clienttypes.Height] and its
    methods [IsZero], [LTE] and [LT] is missing; a height is the pair
    (version number, version height) of two [uint64], compared by version
    number first and by version height within one version. *)
Record Height := mkHeight { VersionNumber : Z; VersionHeight : Z }.

Definition GetEpochNumber (h : Height) : Z := VersionNumber h.
Definition GetEpochHeight (h : Height) : Z := VersionHeight h.

Definition Height_wf (h : Height) : Prop :=
  Int64.is_uint64 (VersionNumber h) /\ Int64.is_uint64 (VersionHeight h).

Definition Height_IsZero (h : Height) : bool :=
  (VersionNumber h =? 0) && (VersionHeight h =? 0).

Definition Height_Compare (h other : Height) : comparison :=
  match VersionNumber h ?= VersionNumber other with
  | Eq => VersionHeight h ?= VersionHeight other
  | c => c
  end.

Definition Height_LTE (h other : Height) : bool :=
  match Height_Compare h other with Gt => false | _ => true end.

Definition Height_LT (h other : Height) : bool :=
  match Height_Compare h other with Lt => true | _ => false end.

(** ** Client and consensus states *)

Record Fraction := mkFraction { Numerator : Z; Denominator : Z }.

(** Modelled from the spec: the declaration of [ClientState] is missing;
    the fields are those of the spec's data model.  [FrozenHeight] is a
    [Height] value (it is assigned one at the end of
    [CheckMisbehaviourAndUpdateState]); the zero height stands for "not
    frozen". *)
Record ClientState := mkClientState {
  ChainId : string;
  TrustLevel : Fraction;
  TrustingPeriod : Duration;
  UnbondingPeriod : Duration;
  MaxClockDrift : Duration;
  FrozenHeight : Height;
  LatestHeight : Height
}.

Definition GetChainID (cs : ClientState) : string := ChainId cs.

Definition IsFrozen (cs : ClientState) : bool :=
  negb (Height_IsZero (FrozenHeight cs)).

(** The assignment [cs.FrozenHeight = h]. *)
Definition set_FrozenHeight (h : Height) (cs : ClientState) : ClientState :=
  {| ChainId := ChainId cs;
     TrustLevel := TrustLevel cs;
     TrustingPeriod := TrustingPeriod cs;
     UnbondingPeriod := UnbondingPeriod cs;
     MaxClockDrift := MaxClockDrift cs;
     FrozenHeight := h;
     LatestHeight := LatestHeight cs |}.

(** Modelled from the spec: the declaration of [ConsensusState] is missing;
    a timestamp, a commitment root and the hash of the next validator set. *)
Record ConsensusState := mkConsensusState {
  Timestamp : Time;
  Root : list Byte.byte;
  NextValidatorsHash : list Byte.byte
}.

(** ** The context *)

Record EvidenceParams := mkEvidenceParams {
  MaxAgeNumBlocks : Z;
  MaxAgeDuration : Duration
}.

(** [Evidence] is a pointer and may be nil. *)
Record AbciConsensusParams := mkAbciConsensusParams {
  Evidence : option EvidenceParams
}.

(** [ctx.ConsensusParams()] returns a pointer that may be nil. *)
Record SdkContext := mkSdkContext {
  BlockTime : Time;
  ConsensusParams : option AbciConsensusParams
}.

(** ** Errors *)

Inductive HeaderId := Header1Id | Header2Id.

(** The registered errors the file refers to, the errors that come out of
    collaborators, and [sdkerrors.Wrap]/[Wrapf], which keeps the wrapped
    error and adds a message.  A message carries the values that the format
    string prints. *)
Inductive Error : Type :=
| ErrInvalidClientType
| ErrInvalidMisbehaviour
| ErrUnbondingPeriodExpired
| ErrCollaborator (what : string)
| Wrap (e : Error) (m : Msg)
with Msg : Type :=
| MsgExpectedType
| MsgAlreadyFrozen (frozen misbehaviourHeight : Height)
| MsgNoTrustedConsensusState (which : HeaderId)
| MsgAge (ageDuration ageBlocks maxAgeDuration maxAgeNumBlocks : Z)
| MsgVerifyingHeaderFailed (which : HeaderId)
| MsgNotValidatorSet
| MsgNotCommit
| MsgUnbondingPeriod (elapsed period : Duration)
| MsgTooMuchChange (err : Error).

(** The registered error at the bottom of a chain of wraps. *)
Fixpoint Cause (e : Error) : Error :=
  match e with
  | Wrap e' _ => Cause e'
  | _ => e
  end.

(** ** Collaborators

    The Tendermint library: the wire types carried by a header, the decoded
    types, the two decoders and the light-client commit verification. *)
Class Tendermint : Type := {
  ProtoValidatorSet : Type;
  ProtoCommit : Type;
  TmValidatorSet : Type;
  TmCommit : Type;
  TmFraction : Type;
  ValidatorSetFromProto : ProtoValidatorSet -> Error + TmValidatorSet;
  CommitFromProto : ProtoCommit -> Error + TmCommit;
  VerifyCommitLightTrusting :
    TmValidatorSet -> string -> TmCommit -> TmFraction -> option Error
}.

(** Modelled from the spec: the declarations of [Header] and [Misbehaviour]
    are missing; a header claims a height and a timestamp, and carries a
    commit, the validator set that produced it, the trusted height and the
    validator set at that height; a misbehaviour is a pair of headers. *)
Record Header `{Tendermint} := mkHeader {
  HeaderHeight : Height;
  HeaderTime : Time;
  Commit : ProtoCommit;
  ValidatorSet : ProtoValidatorSet;
  TrustedHeight : Height;
  TrustedValidators : ProtoValidatorSet
}.

Definition Header_GetHeight `{Tendermint} (header : Header) : Height :=
  HeaderHeight header.

Record Misbehaviour `{Tendermint} := mkMisbehaviour {
  ClientId : string;
  Header1 : Header;
  Header2 : Header
}.

(** [exported.Misbehaviour] is an interface; a value of it is either a
    [*Misbehaviour] of this client or the misbehaviour of another client
    type, on which the type assertion fails. *)
Inductive ExportedMisbehaviour `{Tendermint} : Type :=
| TendermintMisbehaviour (m : Misbehaviour)
| ForeignMisbehaviour (clientType : string).

(** The functions of the repository that the file calls and that are
    declared elsewhere: the store access, the methods of [Misbehaviour],
    the check of the trusted fields, and the chain identifier helpers.
    [SetEpochNumber] returns a string and an error, as in Go. *)
Class Collaborators `{Tendermint} : Type := {
  KVStore : Type;
  BinaryMarshaler : Type;
  GetConsensusState : KVStore -> BinaryMarshaler -> Height -> Error + ConsensusState;
  Misbehaviour_GetHeight : Misbehaviour -> Height;
  Misbehaviour_GetTime : Misbehaviour -> Time;
  checkTrustedHeader : Header -> ConsensusState -> option Error;
  IsEpochFormat : string -> bool;
  SetEpochNumber : string -> Z -> string * option Error;
  ToTendermint : Fraction -> TmFraction
}.

(** ** The monad of a function body

    A frame holds what a call can write to: the callee's copy [cs] of the
    receiver (Go passes [ClientState] by value) and the log of the calls
    made so far, oldest first.  A computation either goes on with a value
    or has executed a [return] with the function's result. *)

Inductive Event `{Tendermint} : Type :=
| EvGetConsensusState (h : Height)
| EvCheckMisbehaviourHeader (consState : ConsensusState) (header : Header)
| EvValidatorSetFromProto
| EvCommitFromProto
| EvCheckTrustedHeader
| EvSetEpochNumber (chainID : string) (epoch : Z)
| EvVerifyCommitLightTrusting (chainID : string).

Record Frame `{Tendermint} := mkFrame {
  cs_local : ClientState;
  events : list Event
}.

Section Monad.
Context `{Tendermint}.

Definition M (R A : Type) : Type := Frame -> Frame * (R + A).

Definition ret {R A} (a : A) : M R A := fun f => (f, inr a).

Definition bind {R A B} (m : M R A) (k : A -> M R B) : M R B :=
  fun f =>
    match m f with
    | (f', inl r) => (f', inl r)
    | (f', inr a) => k a f'
    end.

(** Go's [return r]. *)
Definition Return {R A} (r : R) : M R A := fun f => (f, inl r).

(** Reading the variable [cs]. *)
Definition read_cs {R} : M R ClientState := fun f => (f, inr (cs_local f)).

(** [cs.FrozenHeight = h]. *)
Definition assign_FrozenHeight {R} (h : Height) : M R unit :=
  fun f =>
    ({| cs_local := set_FrozenHeight h (cs_local f); events := events f |},
     inr tt).

Definition emit {R} (e : Event) : M R unit :=
  fun f => ({| cs_local := cs_local f; events := events f ++ [e] |}, inr tt).

(** [x, err := call; if err != nil { return onErr err }]. *)
Definition try {R A} (r : Error + A) (onErr : Error -> R) : M R A :=
  match r with
  | inl err => Return (onErr err)
  | inr a => ret a
  end.

(** [if err := call; err != nil { return onErr err }]. *)
Definition check {R} (r : option Error) (onErr : Error -> R) : M R unit :=
  match r with
  | Some err => Return (onErr err)
  | None => ret tt
  end.

(** [if b { return r }]. *)
Definition return_if {R} (b : bool) (r : R) : M R unit :=
  if b then Return r else ret tt.

(** A call of a function of the same package, run to its [return]. *)
Definition invoke {R R'} (m : M R' R') : M R R' :=
  fun f =>
    match m f with
    | (f', inl r) => (f', inr r)
    | (f', inr r) => (f', inr r)
    end.

Definition run {R} (m : M R R) (f : Frame) : Frame * R :=
  match m f with
  | (f', inl r) => (f', r)
  | (f', inr r) => (f', r)
  end.

End Monad.

Notation "x <- c1 ;; c2" := (bind c1 (fun x => c2))
  (at level 61, c1 at next level, right associativity).
Notation "c1 ;; c2" := (bind c1 (fun _ => c2))
  (at level 61, right associativity).

(** ** The two functions *)

Section MisbehaviourHandle.
Context `{Collaborators}.

(** The result of [CheckMisbehaviourAndUpdateState]: a client state
    pointer and an error, either of which may be nil. *)
Definition GoResult : Type := option ClientState * option Error.

(** [checkMisbehaviourHeader]; [clientState] points to the caller's
    [cs]. *)
Definition checkMisbehaviourHeader
    (consState : ConsensusState) (header : Header)
    (currentTimestamp : Time) : M (option Error) (option Error) :=
  emit (EvCheckMisbehaviourHeader consState header) ;;
  emit EvValidatorSetFromProto ;;
  tmTrustedValset <-
    try (ValidatorSetFromProto (TrustedValidators header))
        (fun err => Some (Wrap err MsgNotValidatorSet)) ;;
  emit EvCommitFromProto ;;
  tmCommit <-
    try (CommitFromProto (Commit header))
        (fun err => Some (Wrap err MsgNotCommit)) ;;
  emit EvCheckTrustedHeader ;;
  check (checkTrustedHeader header consState) (fun err => Some err) ;;
  clientState <- read_cs ;;
  return_if
    (Time_Sub currentTimestamp (Timestamp consState)
       >=? UnbondingPeriod clientState)
    (Some (Wrap ErrUnbondingPeriodExpired
             (MsgUnbondingPeriod
                (Time_Sub currentTimestamp (Timestamp consState))
                (UnbondingPeriod clientState)))) ;;
  let chainID := GetChainID clientState in
  chainID <-
    (if IsEpochFormat chainID then
       emit (EvSetEpochNumber chainID
               (GetEpochNumber (Header_GetHeight header))) ;;
       ret (fst (SetEpochNumber chainID
                   (GetEpochNumber (Header_GetHeight header))))
     else ret chainID) ;;
  emit (EvVerifyCommitLightTrusting chainID) ;;
  check
    (VerifyCommitLightTrusting tmTrustedValset chainID tmCommit
       (ToTendermint (TrustLevel clientState)))
    (fun err => Some (Wrap ErrInvalidMisbehaviour (MsgTooMuchChange err))) ;;
  Return None.

(** The age of a misbehaviour in blocks, as the function computes it. *)
Definition ageBlocks (cs : ClientState) (tmMisbehaviour : Misbehaviour) : Z :=
  if GetEpochNumber (Misbehaviour_GetHeight tmMisbehaviour)
       =? VersionNumber (LatestHeight cs)
  then
    let infractionHeight :=
      GetEpochHeight (Misbehaviour_GetHeight tmMisbehaviour) in
    Int64.of_unsigned
      (Int64.usub (VersionHeight (LatestHeight cs)) infractionHeight)
  else 0.

(** The condition of the staleness test. *)
Definition tooOld (consensusParams : option AbciConsensusParams)
    (ageDuration : Duration) (ageBlocks : Z) : bool :=
  match consensusParams with
  | None => false
  | Some params =>
      match Evidence params with
      | None => false
      | Some evidence =>
          (ageDuration >? MaxAgeDuration evidence)
          || (ageBlocks >? MaxAgeNumBlocks evidence)
      end
  end.

Definition maxAge (consensusParams : option AbciConsensusParams) : Z * Z :=
  match consensusParams with
  | Some {| Evidence := Some evidence |} =>
      (MaxAgeDuration evidence, MaxAgeNumBlocks evidence)
  | _ => (0, 0)
  end.

Definition CheckMisbehaviourAndUpdateState_body
    (ctx : SdkContext) (cdc : BinaryMarshaler) (clientStore : KVStore)
    (misbehaviour : ExportedMisbehaviour) : M GoResult GoResult :=
  match misbehaviour with
  | ForeignMisbehaviour _ =>
      Return (None, Some (Wrap ErrInvalidClientType MsgExpectedType))
  | TendermintMisbehaviour tmMisbehaviour =>
      cs <- read_cs ;;
      return_if
        (IsFrozen cs
         && Height_LTE (FrozenHeight cs) (Misbehaviour_GetHeight tmMisbehaviour))
        (None, Some (Wrap ErrInvalidMisbehaviour
                       (MsgAlreadyFrozen (FrozenHeight cs)
                          (Misbehaviour_GetHeight tmMisbehaviour)))) ;;
      emit (EvGetConsensusState (TrustedHeight (Header1 tmMisbehaviour))) ;;
      tmConsensusState1 <-
        try (GetConsensusState clientStore cdc
               (TrustedHeight (Header1 tmMisbehaviour)))
            (fun err =>
               (None, Some (Wrap err (MsgNoTrustedConsensusState Header1Id)))) ;;
      emit (EvGetConsensusState (TrustedHeight (Header2 tmMisbehaviour))) ;;
      tmConsensusState2 <-
        try (GetConsensusState clientStore cdc
               (TrustedHeight (Header2 tmMisbehaviour)))
            (fun err =>
               (None, Some (Wrap err (MsgNoTrustedConsensusState Header2Id)))) ;;
      let infractionTime := Misbehaviour_GetTime tmMisbehaviour in
      let ageDuration := Time_Sub (BlockTime ctx) infractionTime in
      cs <- read_cs ;;
      let ageBlocks := ageBlocks cs tmMisbehaviour in
      let consensusParams := ConsensusParams ctx in
      return_if
        (tooOld consensusParams ageDuration ageBlocks)
        (None, Some (Wrap ErrInvalidMisbehaviour
                       (MsgAge ageDuration ageBlocks
                          (fst (maxAge consensusParams))
                          (snd (maxAge consensusParams))))) ;;
      err1 <-
        invoke (checkMisbehaviourHeader tmConsensusState1
                  (Header1 tmMisbehaviour) (BlockTime ctx)) ;;
      check err1
        (fun err =>
           (None, Some (Wrap err (MsgVerifyingHeaderFailed Header1Id)))) ;;
      err2 <-
        invoke (checkMisbehaviourHeader tmConsensusState2
                  (Header2 tmMisbehaviour) (BlockTime ctx)) ;;
      check err2
        (fun err =>
           (None, Some (Wrap err (MsgVerifyingHeaderFailed Header2Id)))) ;;
      assign_FrozenHeight (Misbehaviour_GetHeight tmMisbehaviour) ;;
      cs <- read_cs ;;
      Return (Some cs, None)
  end.

(** A call [cs.CheckMisbehaviourAndUpdateState(ctx, cdc, clientStore,
    misbehaviour)]: the final frame and the result. *)
Definition CheckMisbehaviourAndUpdateState
    (cs : ClientState) (ctx : SdkContext) (cdc : BinaryMarshaler)
    (clientStore : KVStore) (misbehaviour : ExportedMisbehaviour)
    : Frame * GoResult :=
  run (CheckMisbehaviourAndUpdateState_body ctx cdc clientStore misbehaviour)
      {| cs_local := cs; events := [] |}.

(** A call [checkMisbehaviourHeader(&cs, consState, header, now)] in a
    frame. *)
Definition run_checkMisbehaviourHeader
    (f : Frame) (consState : ConsensusState) (header : Header)
    (currentTimestamp : Time) : Frame * option Error :=
  run (checkMisbehaviourHeader consState header currentTimestamp) f.

End MisbehaviourHandle.

(** ** The handler around the check *)

(** Modelled from the spec: the message handler is missing; it "persists
    the returned ClientState if no error occurred", and keeps the state it
    loaded otherwise. *)
Definition submitMisbehaviour `{Collaborators}
    (cs : ClientState)
    (call : SdkContext * BinaryMarshaler * KVStore * ExportedMisbehaviour)
    : ClientState :=
  let '(ctx, cdc, clientStore, misbehaviour) := call in
  match snd (CheckMisbehaviourAndUpdateState cs ctx cdc clientStore misbehaviour) with
  | (Some cs', None) => cs'
  | _ => cs
  end.

Definition submitAll `{Collaborators}
    (cs : ClientState)
    (calls : list (SdkContext * BinaryMarshaler * KVStore * ExportedMisbehaviour))
    : ClientState :=
  fold_left submitMisbehaviour calls cs.

(** The height of a submitted misbehaviour is not the zero height (the
    structural validation that precedes the check rejects it). *)
Definition nonZeroHeight `{Collaborators}
    (call : SdkContext * BinaryMarshaler * KVStore * ExportedMisbehaviour)
    : Prop :=
  match call with
  | (_, _, _, TendermintMisbehaviour m) =>
      Height_IsZero (Misbehaviour_GetHeight m) = false
  | _ => True
  end.

(** ** Reading results *)

Section Outcomes.
Context `{Collaborators}.

Definition AlreadyFrozen (r : GoResult) : Prop :=
  exists frozen h,
    r = (None, Some (Wrap ErrInvalidMisbehaviour (MsgAlreadyFrozen frozen h))).

Definition StaleMisbehaviour (r : GoResult) : Prop :=
  exists ageDuration ageBlocks maxDuration maxBlocks,
    r = (None, Some (Wrap ErrInvalidMisbehaviour
                       (MsgAge ageDuration ageBlocks maxDuration maxBlocks))).

(** The per-header check was entered for some header. *)
Definition reachesHeaderVerification (f : Frame) : Prop :=
  exists consState header,
    In (EvCheckMisbehaviourHeader consState header) (events f).

Definition readsStore (f : Frame) : Prop :=
  exists h, In (EvGetConsensusState h) (events f).

Definition reachesCommitVerification (f : Frame) : Prop :=
  exists chainID, In (EvVerifyCommitLightTrusting chainID) (events f).

(** The two ways a call can end. *)
Inductive Outcome (cs : ClientState) (misbehaviour : ExportedMisbehaviour)
    : Frame * GoResult -> Prop :=
| Rejected (f : Frame) (err : Error) :
    cs_local f = cs ->
    Outcome cs misbehaviour (f, (None, Some err))
| Frozen (f : Frame) (m : Misbehaviour) :
    misbehaviour = TendermintMisbehaviour m ->
    IsFrozen cs && Height_LTE (FrozenHeight cs) (Misbehaviour_GetHeight m) = false ->
    cs_local f = set_FrozenHeight (Misbehaviour_GetHeight m) cs ->
    Outcome cs misbehaviour
      (f, (Some (set_FrozenHeight (Misbehaviour_GetHeight m) cs), None)).

End Outcomes.

(** ** The phases of the check, named for the statements below *)

Section Phases.
Context `{Collaborators}.

(** The chain identifier handed to the commit verification. *)
Definition verifiedChainID (cs : ClientState) (header : Header) : string :=
  if IsEpochFormat (GetChainID cs)
  then fst (SetEpochNumber (GetChainID cs)
              (GetEpochNumber (Header_GetHeight header)))
  else GetChainID cs.

Definition substitutionEvents (cs : ClientState) (header : Header) : list Event :=
  if IsEpochFormat (GetChainID cs)
  then [EvSetEpochNumber (GetChainID cs)
          (GetEpochNumber (Header_GetHeight header))]
  else [].

(** What follows the staleness test: both headers are verified, then the
    client is frozen. *)
Definition verifyBoth (f : Frame) (ctx : SdkContext) (m : Misbehaviour)
    (consState1 consState2 : ConsensusState) : Frame * GoResult :=
  let r1 := run_checkMisbehaviourHeader f consState1 (Header1 m) (BlockTime ctx) in
  match snd r1 with
  | Some err =>
      (fst r1, (None, Some (Wrap err (MsgVerifyingHeaderFailed Header1Id))))
  | None =>
      let r2 := run_checkMisbehaviourHeader (fst r1) consState2 (Header2 m)
                  (BlockTime ctx) in
      match snd r2 with
      | Some err =>
          (fst r2, (None, Some (Wrap err (MsgVerifyingHeaderFailed Header2Id))))
      | None =>
          let cs' := set_FrozenHeight (Misbehaviour_GetHeight m)
                       (cs_local (fst r2)) in
          (mkFrame _ cs' (events (fst r2)), (Some cs', None))
      end
  end.

End Phases.

(** ** An instance of the collaborators

    A small executable instance on which the functions can be evaluated: a
    validator set is its total voting power, a commit is the chain
    identifier it signs and the voting power that signed it, the store is
    an association list, and a chain identifier is in version format when
    it ends with a dash and a decimal number. *)
Module Sim.

Definition Height_eqb (a b : Height) : bool :=
  (VersionNumber a =? VersionNumber b) && (VersionHeight a =? VersionHeight b).

#[export] Instance tendermint : Tendermint := {|
  ProtoValidatorSet := option Z;
  ProtoCommit := option (string * Z);
  TmValidatorSet := Z;
  TmCommit := string * Z;
  TmFraction := Fraction;
  ValidatorSetFromProto := fun p =>
    match p with
    | None => inl (ErrCollaborator "nil validator set")
    | Some total => inr total
    end;
  CommitFromProto := fun p =>
    match p with
    | None => inl (ErrCollaborator "nil commit")
    | Some c => inr c
    end;
  VerifyCommitLightTrusting := fun total chainID commit level =>
    if negb (String.eqb (fst commit) chainID) then
      Some (ErrCollaborator "commit signs another chain identifier")
    else if total * Numerator level <? snd commit * Denominator level then None
    else Some (ErrCollaborator "insufficient trusted voting power")
|}.

Fixpoint lookup (store : list (Height * ConsensusState)) (h : Height)
    : Error + ConsensusState :=
  match store with
  | [] => inl (ErrCollaborator "consensus state not found")
  | (k, v) :: rest => if Height_eqb k h then inr v else lookup rest h
  end.

(** [splitAtLastDash "a-b-7" = Some ("a-b", "7")]. *)
Fixpoint splitAtLastDash (s : string) : option (string * string) :=
  match s with
  | EmptyString => None
  | String c rest =>
      match splitAtLastDash rest with
      | Some (base, suffix) => Some (String c base, suffix)
      | None => if Ascii.eqb c "-"%char then Some (EmptyString, rest) else None
      end
  end.

Definition isDigit (c : Ascii.ascii) : bool :=
  let n := Ascii.nat_of_ascii c in (48 <=? n)%nat && (n <=? 57)%nat.

Definition isNumber (s : string) : bool :=
  negb (String.eqb s EmptyString) && forallb isDigit (list_ascii_of_string s).

Definition isEpochFormat (s : string) : bool :=
  match splitAtLastDash s with
  | Some (base, suffix) => negb (String.eqb base EmptyString) && isNumber suffix
  | None => false
  end.

Definition decimal (n : Z) : string :=
  DecimalString.NilZero.string_of_uint (N.to_uint (Z.to_N n)).

Definition setEpochNumber (s : string) (epoch : Z) : string * option Error :=
  match splitAtLastDash s with
  | Some (base, _) =>
      if isEpochFormat s then (base ++ "-" ++ decimal epoch, None)%string
      else (EmptyString, Some (ErrCollaborator "chainID is not in epoch format"))
  | None => (EmptyString, Some (ErrCollaborator "chainID is not in epoch format"))
  end.

(** The height of a misbehaviour is the height of its first header, and
    its time the earlier of the two header times. *)
#[export] Instance collaborators : Collaborators := {|
  KVStore := list (Height * ConsensusState);
  BinaryMarshaler := unit;
  GetConsensusState := fun store _ h => lookup store h;
  Misbehaviour_GetHeight := fun m => Header_GetHeight (Header1 m);
  Misbehaviour_GetTime := fun m =>
    Z.min (HeaderTime (Header1 m)) (HeaderTime (Header2 m));
  checkTrustedHeader := fun _ _ => None;
  IsEpochFormat := isEpochFormat;
  SetEpochNumber := setEpochNumber;
  ToTendermint := fun level => level
|}.

Definition hour : Duration := 3600 * 1000000000.

(** The scenario of the spec: a client at height (1, 100), trust level
    2/3, a trusted validator set of power 100 at height (1, 90). *)
Definition client : ClientState := {|
  ChainId := "testchain-1";
  TrustLevel := {| Numerator := 2; Denominator := 3 |};
  TrustingPeriod := 336 * hour;
  UnbondingPeriod := 504 * hour;
  MaxClockDrift := 10 * 1000000000;
  FrozenHeight := mkHeight 0 0;
  LatestHeight := mkHeight 1 100
|}.

Definition trusted : ConsensusState := {|
  Timestamp := 1000 * hour;
  Root := [];
  NextValidatorsHash := []
|}.

Definition store : list (Height * ConsensusState) :=
  [(mkHeight 1 90, trusted)].

(** A header at [height] signed for [chainID] by voting power [signed]. *)
Definition header (height : Height) (chainID : string) (signed : Z) : Header := {|
  HeaderHeight := height;
  HeaderTime := 1010 * hour;
  Commit := Some (chainID, signed);
  ValidatorSet := Some 100;
  TrustedHeight := mkHeight 1 90;
  TrustedValidators := Some 100
|}.

Definition misbehaviourAt (height : Height) (signed : Z) : Misbehaviour := {|
  ClientId := "07-tendermint-0";
  Header1 := header height "testchain-1" signed;
  Header2 := header height "testchain-1" signed
|}.

Definition evidence48h : option AbciConsensusParams :=
  Some {| Evidence := Some {| MaxAgeNumBlocks := 100000; MaxAgeDuration := 48 * hour |} |}.

(** Two hours after the headers' time. *)
Definition ctx : SdkContext :=
  {| BlockTime := 1012 * hour; ConsensusParams := evidence48h |}.

(** The client with another frozen height, or another latest height. *)
Definition frozenAt (h : Height) : ClientState :=
  set_FrozenHeight h client.

Definition clientAt (latest : Height) : ClientState := {|
  ChainId := ChainId client;
  TrustLevel := TrustLevel client;
  TrustingPeriod := TrustingPeriod client;
  UnbondingPeriod := UnbondingPeriod client;
  MaxClockDrift := MaxClockDrift client;
  FrozenHeight := FrozenHeight client;
  LatestHeight := latest
|}.

(** Forty-nine hours after the headers' time. *)
Definition lateCtx : SdkContext :=
  {| BlockTime := 1059 * hour; ConsensusParams := evidence48h |}.

(** The same late block, without consensus parameters, and with consensus
    parameters that carry no evidence parameters. *)
Definition lateCtxNoParams : SdkContext :=
  {| BlockTime := 1059 * hour; ConsensusParams := None |}.

Definition lateCtxNoEvidence : SdkContext :=
  {| BlockTime := 1059 * hour; ConsensusParams := Some {| Evidence := None |} |}.

(** More than an unbonding period after the trusted consensus state. *)
Definition expiredCtx : SdkContext :=
  {| BlockTime := 1504 * hour; ConsensusParams := None |}.

Definition emptyFrame (cs : ClientState) : Frame :=
  {| cs_local := cs; events := [] |}.

(** Two submissions, at (1, 95) and then at (1, 96). *)
Definition submissions
    : list (SdkContext * unit * list (Height * ConsensusState) * ExportedMisbehaviour) :=
  [(ctx, tt, store, TendermintMisbehaviour (misbehaviourAt (mkHeight 1 95) 70));
   (ctx, tt, store, TendermintMisbehaviour (misbehaviourAt (mkHeight 1 96) 70))].

End Sim.

(** ** What the per-header check asks of a header *)

Section Acceptance.
Context `{Collaborators}.

(** The conditions that [checkMisbehaviourHeader] tests one after the
    other, for the client state [cs] behind its pointer argument. *)
Definition headerAccepted (cs : ClientState) (consState : ConsensusState)
    (header : Header) (now : Time) : Prop :=
  exists (valset : TmValidatorSet) (commit : TmCommit),
    ValidatorSetFromProto (TrustedValidators header) = inr valset
    /\ CommitFromProto (Commit header) = inr commit
    /\ checkTrustedHeader header consState = None
    /\ Time_Sub now (Timestamp consState) < UnbondingPeriod cs
    /\ VerifyCommitLightTrusting valset (verifiedChainID cs header) commit
         (ToTendermint (TrustLevel cs)) = None.

(** Every test of [CheckMisbehaviourAndUpdateState] passes. *)
Definition accepted (cs : ClientState) (ctx : SdkContext) (cdc : BinaryMarshaler)
    (clientStore : KVStore) (m : Misbehaviour) : Prop :=
  IsFrozen cs && Height_LTE (FrozenHeight cs) (Misbehaviour_GetHeight m) = false
  /\ exists consState1 consState2,
       GetConsensusState clientStore cdc (TrustedHeight (Header1 m)) = inr consState1
       /\ GetConsensusState clientStore cdc (TrustedHeight (Header2 m)) = inr consState2
       /\ tooOld (ConsensusParams ctx)
            (Time_Sub (BlockTime ctx) (Misbehaviour_GetTime m)) (ageBlocks cs m)
          = false
       /\ headerAccepted cs consState1 (Header1 m) (BlockTime ctx)
       /\ headerAccepted cs consState2 (Header2 m) (BlockTime ctx).

(** The same misbehaviour with its two headers exchanged. *)
Definition swapHeaders (m : Misbehaviour) : Misbehaviour :=
  {| ClientId := ClientId m; Header1 := Header2 m; Header2 := Header1 m |}.

Definition isStoreRead (e : Event) : bool :=
  match e with
  | EvGetConsensusState _ => true
  | _ => false
  end.

Definition isWrapped (e : Error) : bool :=
  match e with
  | Wrap _ _ => true
  | _ => false
  end.

End Acceptance.

(** ** Store keys of the upgrade module

    [x/upgrade/types/keys.go].  A [[]byte] is a list of bytes; the
    conversion [[]byte(s)] of a string constant of ASCII characters gives
    its characters. *)
Module UpgradeKeys.

Definition ModuleName : string := "upgrade".
Definition RouterKey : string := ModuleName.
Definition StoreKey : string := ModuleName.
Definition QuerierKey : string := ModuleName.

Definition PlanByte : Byte.byte := Byte.x00.
Definition DoneByte : Byte.byte := Byte.x01.
Definition KeyUpgradedClient : string := "upgradedClient".

Definition PlanKey : list Byte.byte := [PlanByte].

Definition UpgradedClientKey : list Byte.byte :=
  list_byte_of_string KeyUpgradedClient.

(** [isPrefix p k]: the key [k] starts with [p]. *)
Fixpoint isPrefix (p k : list Byte.byte) : bool :=
  match p, k with
  | [], _ => true
  | _ :: _, [] => false
  | a :: p', b :: k' => Byte.eqb a b && isPrefix p' k'
  end.

End UpgradeKeys.

(** ** More of the instance [Sim] *)
Module SimCases.
Import Sim.

(** A store without the trusted height of the headers. *)
Definition emptyStore : list (Height * ConsensusState) := [].

(** A misbehaviour whose two headers have different trusted heights. *)
Definition misbehaviourTrusting (h1 h2 : Height) (signed1 signed2 : Z)
    : Misbehaviour := {|
  ClientId := "07-tendermint-0";
  Header1 := {| HeaderHeight := mkHeight 1 95;
                HeaderTime := 1010 * hour;
                Commit := Some ("testchain-1"%string, signed1);
                ValidatorSet := Some 100;
                TrustedHeight := h1;
                TrustedValidators := Some 100 |};
  Header2 := {| HeaderHeight := mkHeight 1 95;
                HeaderTime := 1010 * hour;
                Commit := Some ("testchain-1"%string, signed2);
                ValidatorSet := Some 100;
                TrustedHeight := h2;
                TrustedValidators := Some 100 |}
|}.

(** A store with a second trusted consensus state, at (1, 80). *)
Definition store2 : list (Height * ConsensusState) :=
  [(mkHeight 1 90, trusted); (mkHeight 1 80, trusted)].

(** A client whose chain identifier is not in version format. *)
Definition plainClient : ClientState := {|
  ChainId := "testchain";
  TrustLevel := TrustLevel client;
  TrustingPeriod := TrustingPeriod client;
  UnbondingPeriod := UnbondingPeriod client;
  MaxClockDrift := MaxClockDrift client;
  FrozenHeight := FrozenHeight client;
  LatestHeight := LatestHeight client
|}.

(** One hour after the headers' time. *)
Definition earlyCtx : SdkContext :=
  {| BlockTime := 1011 * hour; ConsensusParams := evidence48h |}.

(** Still later than [lateCtx]. *)
Definition laterCtx : SdkContext :=
  {| BlockTime := 1100 * hour; ConsensusParams := evidence48h |}.

End SimCases.

(** * Properties *)

(** ** Arithmetic of the conversions *)

Lemma usub_no_borrow (a b : Z) :
  Int64.is_uint64 a -> Int64.is_uint64 b -> b <= a -> Int64.usub a b = a - b.
Proof.
  unfold Int64.is_uint64, Int64.usub. intros Ha Hb Hle.
  apply Z.mod_small. lia.
Qed.

Lemma usub_borrow (a b : Z) :
  Int64.is_uint64 a -> Int64.is_uint64 b -> a < b ->
  Int64.usub a b = a - b + Int64.modulus.
Proof.
  unfold Int64.is_uint64, Int64.usub. intros Ha Hb Hlt.
  symmetry. apply (Z.mod_unique _ _ (-1)); lia.
Qed.

Lemma usub_range (a b : Z) : Int64.is_uint64 (Int64.usub a b).
Proof.
  unfold Int64.is_uint64, Int64.usub.
  apply Z.mod_pos_bound. unfold Int64.modulus. lia.
Qed.

Lemma of_unsigned_low (x : Z) :
  0 <= x < Int64.half_modulus -> Int64.of_unsigned x = x.
Proof.
  unfold Int64.of_unsigned, Int64.half_modulus, Int64.modulus. intros Hx.
  rewrite Z.mod_small by lia.
  destruct (x <? 2 ^ 63) eqn:E; [reflexivity | apply Z.ltb_ge in E; lia].
Qed.

Lemma of_unsigned_high (x : Z) :
  Int64.half_modulus <= x < Int64.modulus ->
  Int64.of_unsigned x = x - Int64.modulus.
Proof.
  unfold Int64.of_unsigned, Int64.half_modulus, Int64.modulus. intros Hx.
  rewrite Z.mod_small by lia.
  destruct (x <? 2 ^ 63) eqn:E; [apply Z.ltb_lt in E; lia | reflexivity].
Qed.

Lemma of_unsigned_range (x : Z) : Int64.is_int64 (Int64.of_unsigned x).
Proof.
  unfold Int64.is_int64, Int64.of_unsigned, Int64.min_signed, Int64.max_signed,
    Int64.half_modulus, Int64.modulus.
  assert (Hb : 0 <= x mod 2 ^ 64 < 2 ^ 64) by (apply Z.mod_pos_bound; lia).
  cbv zeta. destruct (x mod 2 ^ 64 <? 2 ^ 63) eqn:E.
  - apply Z.ltb_lt in E. lia.
  - apply Z.ltb_ge in E. lia.
Qed.

(** The [int64] of a [uint64] difference, by the size of the difference. *)
Lemma of_unsigned_usub (a b : Z) :
  Int64.is_uint64 a -> Int64.is_uint64 b ->
  Int64.of_unsigned (Int64.usub a b) =
    if a - b <? Int64.min_signed then a - b + Int64.modulus
    else if Int64.max_signed <? a - b then a - b - Int64.modulus
    else a - b.
Proof.
  intros Ha Hb.
  pose proof Ha as Ha'. pose proof Hb as Hb'.
  unfold Int64.is_uint64, Int64.modulus in Ha', Hb'.
  destruct (Z_lt_le_dec a b) as [Hlt | Hle].
  - rewrite usub_borrow by assumption.
    unfold Int64.min_signed, Int64.max_signed.
    destruct (a - b <? - 2 ^ 63) eqn:E1.
    + apply Z.ltb_lt in E1. apply of_unsigned_low.
      unfold Int64.half_modulus, Int64.modulus. lia.
    + apply Z.ltb_ge in E1.
      destruct (2 ^ 63 - 1 <? a - b) eqn:E2; [apply Z.ltb_lt in E2; lia |].
      rewrite of_unsigned_high; unfold Int64.half_modulus, Int64.modulus; lia.
  - rewrite usub_no_borrow by assumption.
    unfold Int64.min_signed, Int64.max_signed.
    destruct (a - b <? - 2 ^ 63) eqn:E1; [apply Z.ltb_lt in E1; lia |].
    destruct (2 ^ 63 - 1 <? a - b) eqn:E2.
    + apply Z.ltb_lt in E2.
      rewrite of_unsigned_high; unfold Int64.half_modulus, Int64.modulus; lia.
    + apply Z.ltb_ge in E2. apply of_unsigned_low.
      unfold Int64.half_modulus. lia.
Qed.

(** A difference that fits [int64] survives the wrap and the conversion. *)
Lemma of_unsigned_usub_exact (a b : Z) :
  Int64.is_int64 (a - b) -> Int64.of_unsigned (Int64.usub a b) = a - b.
Proof.
  unfold Int64.is_int64, Int64.min_signed, Int64.max_signed, Int64.of_unsigned,
    Int64.usub, Int64.half_modulus, Int64.modulus.
  intros [Hlo Hhi]. rewrite Z.mod_mod by lia. cbv zeta.
  destruct (Z_lt_le_dec (a - b) 0) as [Hneg | Hpos].
  - assert (Hm : (a - b) mod 2 ^ 64 = a - b + 2 ^ 64)
      by (symmetry; apply (Z.mod_unique _ _ (-1)); lia).
    rewrite Hm.
    destruct (a - b + 2 ^ 64 <? 2 ^ 63) eqn:E; [apply Z.ltb_lt in E; lia | lia].
  - rewrite Z.mod_small by lia.
    destruct (a - b <? 2 ^ 63) eqn:E; [reflexivity | apply Z.ltb_ge in E; lia].
Qed.

Lemma Time_Sub_exact (t u : Time) :
  Int64.is_int64 (t - u) -> Time_Sub t u = t - u.
Proof.
  unfold Int64.is_int64, Time_Sub, minDuration, maxDuration. intros [Hlo Hhi].
  cbv zeta.
  destruct (t - u <? Int64.min_signed) eqn:E1; [apply Z.ltb_lt in E1; lia |].
  destruct (Int64.max_signed <? t - u) eqn:E2; [apply Z.ltb_lt in E2; lia |].
  reflexivity.
Qed.

Lemma Time_Sub_range (t u : Time) : Int64.is_int64 (Time_Sub t u).
Proof.
  unfold Int64.is_int64, Time_Sub, minDuration, maxDuration. cbv zeta.
  assert (Int64.min_signed <= Int64.max_signed)
    by (unfold Int64.min_signed, Int64.max_signed; lia).
  destruct (t - u <? Int64.min_signed) eqn:E1; [lia |].
  apply Z.ltb_ge in E1.
  destruct (Int64.max_signed <? t - u) eqn:E2; [lia |].
  apply Z.ltb_ge in E2. lia.
Qed.

(** Saturation never turns an elapsed time that reaches a period into one
    that does not. *)
Lemma Time_Sub_ge (t u : Time) (period : Duration) :
  Int64.is_int64 period -> period <= t - u -> period <= Time_Sub t u.
Proof.
  unfold Int64.is_int64, Time_Sub, minDuration, maxDuration. intros [Hlo Hhi] Hle.
  cbv zeta.
  destruct (t - u <? Int64.min_signed) eqn:E1; [apply Z.ltb_lt in E1; lia |].
  destruct (Int64.max_signed <? t - u) eqn:E2; lia.
Qed.

(** ** The order on heights *)

Lemma Height_LTE_spec (a b : Height) :
  Height_LTE a b = true <->
  VersionNumber a < VersionNumber b \/
  (VersionNumber a = VersionNumber b /\ VersionHeight a <= VersionHeight b).
Proof.
  unfold Height_LTE, Height_Compare.
  destruct (Z.compare_spec (VersionNumber a) (VersionNumber b));
    destruct (Z.compare_spec (VersionHeight a) (VersionHeight b));
    split; intros Hx; try reflexivity; try discriminate; lia.
Qed.

Lemma Height_LT_spec (a b : Height) :
  Height_LT a b = true <->
  VersionNumber a < VersionNumber b \/
  (VersionNumber a = VersionNumber b /\ VersionHeight a < VersionHeight b).
Proof.
  unfold Height_LT, Height_Compare.
  destruct (Z.compare_spec (VersionNumber a) (VersionNumber b));
    destruct (Z.compare_spec (VersionHeight a) (VersionHeight b));
    split; intros Hx; try reflexivity; try discriminate; lia.
Qed.

Lemma Height_not_LTE (a b : Height) :
  Height_LTE a b = false <-> Height_LT b a = true.
Proof.
  rewrite Height_LT_spec. split.
  - intros Hn.
    destruct (Z.lt_total (VersionNumber a) (VersionNumber b)) as [Hl | [He | Hg]].
    + assert (Height_LTE a b = true) by (apply Height_LTE_spec; lia). congruence.
    + destruct (Z_le_gt_dec (VersionHeight a) (VersionHeight b)).
      * assert (Height_LTE a b = true) by (apply Height_LTE_spec; lia). congruence.
      * lia.
    + lia.
  - intros Hlt. destruct (Height_LTE a b) eqn:E; [| reflexivity].
    apply Height_LTE_spec in E. lia.
Qed.

Lemma Height_LTE_refl (a : Height) : Height_LTE a a = true.
Proof. apply Height_LTE_spec. lia. Qed.

Lemma Height_LTE_trans (a b c : Height) :
  Height_LTE a b = true -> Height_LTE b c = true -> Height_LTE a c = true.
Proof. rewrite !Height_LTE_spec. lia. Qed.

Lemma Height_LT_LTE (a b : Height) :
  Height_LT a b = true -> Height_LTE a b = true.
Proof. rewrite Height_LT_spec, Height_LTE_spec. lia. Qed.

Lemma set_FrozenHeight_FrozenHeight (h : Height) (cs : ClientState) :
  FrozenHeight (set_FrozenHeight h cs) = h.
Proof. reflexivity. Qed.

(** ** The two functions, flattened

    The monadic bodies written out as nested case distinctions; every later
    proof goes through these two equations. *)

Section Flattened.
Context `{Collaborators}.

Lemma checkMisbehaviourHeader_unfold
    (f : Frame) (consState : ConsensusState) (header : Header) (now : Time) :
  run_checkMisbehaviourHeader f consState header now =
  let cs := cs_local f in
  let ev1 := events f ++ [EvCheckMisbehaviourHeader consState header;
                          EvValidatorSetFromProto] in
  match ValidatorSetFromProto (TrustedValidators header) with
  | inl err => (mkFrame _ cs ev1, Some (Wrap err MsgNotValidatorSet))
  | inr valset =>
    match CommitFromProto (Commit header) with
    | inl err =>
        (mkFrame _ cs (ev1 ++ [EvCommitFromProto]), Some (Wrap err MsgNotCommit))
    | inr commit =>
      let ev2 := ev1 ++ [EvCommitFromProto; EvCheckTrustedHeader] in
      match checkTrustedHeader header consState with
      | Some err => (mkFrame _ cs ev2, Some err)
      | None =>
        if Time_Sub now (Timestamp consState) >=? UnbondingPeriod cs then
          (mkFrame _ cs ev2,
           Some (Wrap ErrUnbondingPeriodExpired
                   (MsgUnbondingPeriod (Time_Sub now (Timestamp consState))
                      (UnbondingPeriod cs))))
        else
          (mkFrame _ cs
             (ev2 ++ substitutionEvents cs header
                  ++ [EvVerifyCommitLightTrusting (verifiedChainID cs header)]),
           match VerifyCommitLightTrusting valset (verifiedChainID cs header)
                   commit (ToTendermint (TrustLevel cs)) with
           | Some err =>
               Some (Wrap ErrInvalidMisbehaviour (MsgTooMuchChange err))
           | None => None
           end)
      end
    end
  end.
Proof.
  unfold run_checkMisbehaviourHeader, run, checkMisbehaviourHeader,
    verifiedChainID, substitutionEvents, bind, emit, try, check, return_if,
    read_cs, Return, ret.
  cbn.
  destruct (ValidatorSetFromProto (TrustedValidators header)) as [e | valset];
    cbn; [rewrite <- app_assoc; reflexivity |].
  destruct (CommitFromProto (Commit header)) as [e | commit];
    cbn; [rewrite <- !app_assoc; reflexivity |].
  destruct (checkTrustedHeader header consState) as [e |];
    cbn; [rewrite <- !app_assoc; reflexivity |].
  destruct (Time_Sub now (Timestamp consState) >=? UnbondingPeriod (cs_local f));
    cbn; [rewrite <- !app_assoc; reflexivity |].
  destruct (IsEpochFormat (GetChainID (cs_local f))); cbn;
    match goal with
    | |- context [VerifyCommitLightTrusting ?a ?b ?c ?d] =>
        destruct (VerifyCommitLightTrusting a b c d)
    end; cbn; rewrite <- !app_assoc; reflexivity.
Qed.

(** The per-header check leaves [cs] alone and extends the log, starting
    with its own entry. *)
Lemma checkMisbehaviourHeader_frame
    (f : Frame) (consState : ConsensusState) (header : Header) (now : Time) :
  cs_local (fst (run_checkMisbehaviourHeader f consState header now))
    = cs_local f
  /\ exists rest,
       events (fst (run_checkMisbehaviourHeader f consState header now))
         = events f ++ EvCheckMisbehaviourHeader consState header :: rest.
Proof.
  rewrite checkMisbehaviourHeader_unfold. cbv zeta.
  destruct (ValidatorSetFromProto (TrustedValidators header));
    [cbn; split; [reflexivity | eexists; reflexivity] |].
  destruct (CommitFromProto (Commit header));
    [cbn; split; [reflexivity | rewrite <- app_assoc; eexists; reflexivity] |].
  destruct (checkTrustedHeader header consState);
    [cbn; split; [reflexivity | rewrite <- app_assoc; eexists; reflexivity] |].
  destruct (Time_Sub now (Timestamp consState) >=? UnbondingPeriod (cs_local f));
    cbn; (split; [reflexivity | rewrite <- !app_assoc; eexists; reflexivity]).
Qed.

Lemma invoke_run {R R'} (m : M R' R') (f : Frame) :
  invoke (R := R) m f = (fst (run m f), inr (snd (run m f))).
Proof. unfold invoke, run. destruct (m f) as [f' [r | r]]; reflexivity. Qed.

Lemma CheckMisbehaviourAndUpdateState_unfold
    (cs : ClientState) (ctx : SdkContext) (cdc : BinaryMarshaler)
    (clientStore : KVStore) (m : Misbehaviour) :
  CheckMisbehaviourAndUpdateState cs ctx cdc clientStore
    (TendermintMisbehaviour m) =
  let h1 := TrustedHeight (Header1 m) in
  let h2 := TrustedHeight (Header2 m) in
  if IsFrozen cs && Height_LTE (FrozenHeight cs) (Misbehaviour_GetHeight m) then
    (mkFrame _ cs [],
     (None, Some (Wrap ErrInvalidMisbehaviour
                    (MsgAlreadyFrozen (FrozenHeight cs)
                       (Misbehaviour_GetHeight m)))))
  else
    match GetConsensusState clientStore cdc h1 with
    | inl err =>
        (mkFrame _ cs [EvGetConsensusState h1],
         (None, Some (Wrap err (MsgNoTrustedConsensusState Header1Id))))
    | inr consState1 =>
      match GetConsensusState clientStore cdc h2 with
      | inl err =>
          (mkFrame _ cs [EvGetConsensusState h1; EvGetConsensusState h2],
           (None, Some (Wrap err (MsgNoTrustedConsensusState Header2Id))))
      | inr consState2 =>
        let f := mkFrame _ cs [EvGetConsensusState h1; EvGetConsensusState h2] in
        let ageDuration := Time_Sub (BlockTime ctx) (Misbehaviour_GetTime m) in
        if tooOld (ConsensusParams ctx) ageDuration (ageBlocks cs m) then
          (f, (None, Some (Wrap ErrInvalidMisbehaviour
                             (MsgAge ageDuration (ageBlocks cs m)
                                (fst (maxAge (ConsensusParams ctx)))
                                (snd (maxAge (ConsensusParams ctx)))))))
        else verifyBoth f ctx m consState1 consState2
      end
    end.
Proof.
  unfold CheckMisbehaviourAndUpdateState, CheckMisbehaviourAndUpdateState_body,
    verifyBoth, run at 1.
  unfold bind at 1. unfold read_cs at 1. cbn [cs_local].
  unfold bind at 1. unfold return_if at 1.
  destruct (IsFrozen cs && Height_LTE (FrozenHeight cs) (Misbehaviour_GetHeight m));
    [reflexivity |].
  unfold ret at 1. unfold bind at 1. unfold emit at 1. cbn [cs_local events app].
  unfold bind at 1.
  destruct (GetConsensusState clientStore cdc (TrustedHeight (Header1 m)))
    as [e | consState1]; [reflexivity |].
  unfold try at 1, ret at 1. unfold bind at 1. unfold emit at 1.
  cbn [cs_local events app]. unfold bind at 1.
  destruct (GetConsensusState clientStore cdc (TrustedHeight (Header2 m)))
    as [e | consState2]; [reflexivity |].
  unfold try at 1, ret at 1. cbv zeta.
  unfold bind at 1. unfold read_cs at 1. cbn [cs_local]. unfold bind at 1.
  unfold return_if at 1.
  destruct (tooOld (ConsensusParams ctx)
              (Time_Sub (BlockTime ctx) (Misbehaviour_GetTime m)) (ageBlocks cs m));
    [reflexivity |].
  unfold ret at 1. unfold bind at 1. rewrite invoke_run.
  fold (run_checkMisbehaviourHeader
          {| cs_local := cs;
             events := [EvGetConsensusState (TrustedHeight (Header1 m));
                        EvGetConsensusState (TrustedHeight (Header2 m))] |}
          consState1 (Header1 m) (BlockTime ctx)).
  set (r1 := run_checkMisbehaviourHeader _ consState1 (Header1 m) (BlockTime ctx)).
  unfold bind at 1. unfold check at 1.
  destruct (snd r1) as [e |]; [reflexivity |].
  unfold ret at 1. unfold bind at 1. rewrite invoke_run.
  fold (run_checkMisbehaviourHeader (fst r1) consState2 (Header2 m) (BlockTime ctx)).
  set (r2 := run_checkMisbehaviourHeader _ consState2 (Header2 m) (BlockTime ctx)).
  unfold bind at 1. unfold check at 1.
  destruct (snd r2) as [e |]; reflexivity.
Qed.

End Flattened.

(** ** Outcomes of a call *)

Section OutcomeLemmas.
Context `{Collaborators}.

Lemma verifyBoth_events
    (f : Frame) (ctx : SdkContext) (m : Misbehaviour)
    (consState1 consState2 : ConsensusState) :
  exists rest,
    events (fst (verifyBoth f ctx m consState1 consState2))
      = events f ++ EvCheckMisbehaviourHeader consState1 (Header1 m) :: rest.
Proof.
  unfold verifyBoth. cbv zeta.
  destruct (checkMisbehaviourHeader_frame f consState1 (Header1 m) (BlockTime ctx))
    as [_ [rest1 Hev1]].
  set (r1 := run_checkMisbehaviourHeader f consState1 (Header1 m) (BlockTime ctx)) in *.
  destruct (snd r1); [exists rest1; exact Hev1 |].
  destruct (checkMisbehaviourHeader_frame (fst r1) consState2 (Header2 m) (BlockTime ctx))
    as [_ [rest2 Hev2]].
  set (r2 := run_checkMisbehaviourHeader (fst r1) consState2 (Header2 m) (BlockTime ctx)) in *.
  assert (Hall : events (fst r2)
                 = events f ++ EvCheckMisbehaviourHeader consState1 (Header1 m)
                     :: rest1 ++ EvCheckMisbehaviourHeader consState2 (Header2 m) :: rest2).
  { rewrite Hev2, Hev1, <- app_assoc. reflexivity. }
  destruct (snd r2); cbn [fst events]; eexists; exact Hall.
Qed.

(** Either an error, a nil client state and an untouched [cs], or no error
    and [cs] with the new frozen height, returned. *)
Lemma verifyBoth_outcome
    (f : Frame) (ctx : SdkContext) (m : Misbehaviour)
    (consState1 consState2 : ConsensusState) :
  let r := verifyBoth f ctx m consState1 consState2 in
  (exists err which,
      snd r = (None, Some (Wrap err (MsgVerifyingHeaderFailed which)))
      /\ cs_local (fst r) = cs_local f)
  \/ (snd r = (Some (set_FrozenHeight (Misbehaviour_GetHeight m) (cs_local f)), None)
      /\ cs_local (fst r) = set_FrozenHeight (Misbehaviour_GetHeight m) (cs_local f)).
Proof.
  unfold verifyBoth. cbv zeta.
  destruct (checkMisbehaviourHeader_frame f consState1 (Header1 m) (BlockTime ctx))
    as [Hcs1 _].
  set (r1 := run_checkMisbehaviourHeader f consState1 (Header1 m) (BlockTime ctx)) in *.
  destruct (snd r1) as [e1 |].
  { left. exists e1, Header1Id. split; [reflexivity | exact Hcs1]. }
  destruct (checkMisbehaviourHeader_frame (fst r1) consState2 (Header2 m) (BlockTime ctx))
    as [Hcs2 _].
  set (r2 := run_checkMisbehaviourHeader (fst r1) consState2 (Header2 m) (BlockTime ctx)) in *.
  destruct (snd r2) as [e2 |].
  { left. exists e2, Header2Id. split; [reflexivity | cbn; congruence]. }
  right. cbn [fst snd cs_local]. rewrite Hcs2, Hcs1. split; reflexivity.
Qed.

Lemma verifyBoth_not_stale
    (f : Frame) (ctx : SdkContext) (m : Misbehaviour)
    (consState1 consState2 : ConsensusState) :
  ~ StaleMisbehaviour (snd (verifyBoth f ctx m consState1 consState2)).
Proof.
  intros (a & b & c & d & Hr).
  destruct (verifyBoth_outcome f ctx m consState1 consState2)
    as [(err & which & Herr & _) | [Hok _]];
    cbv zeta in *; rewrite Hr in *; discriminate.
Qed.

Lemma CheckMisbehaviourAndUpdateState_outcome
    (cs : ClientState) (ctx : SdkContext) (cdc : BinaryMarshaler)
    (clientStore : KVStore) (misbehaviour : ExportedMisbehaviour) :
  Outcome cs misbehaviour
    (CheckMisbehaviourAndUpdateState cs ctx cdc clientStore misbehaviour).
Proof.
  destruct misbehaviour as [m | other].
  2: { apply Rejected. reflexivity. }
  rewrite CheckMisbehaviourAndUpdateState_unfold. cbv zeta.
  destruct (IsFrozen cs && Height_LTE (FrozenHeight cs) (Misbehaviour_GetHeight m))
    eqn:Hguard; [apply Rejected; reflexivity |].
  destruct (GetConsensusState clientStore cdc (TrustedHeight (Header1 m)))
    as [e | consState1]; [apply Rejected; reflexivity |].
  destruct (GetConsensusState clientStore cdc (TrustedHeight (Header2 m)))
    as [e | consState2]; [apply Rejected; reflexivity |].
  destruct (tooOld _ _ _); [apply Rejected; reflexivity |].
  match goal with |- Outcome _ _ (verifyBoth ?f _ _ _ _) => set (f0 := f) end.
  pose proof (verifyBoth_outcome f0 ctx m consState1 consState2) as Hout.
  cbv zeta in Hout.
  destruct (verifyBoth f0 ctx m consState1 consState2) as [f' r].
  cbn [fst snd] in Hout.
  destruct Hout as [(err & which & Hr & Hcs) | [Hr Hcs]]; subst r.
  - apply Rejected. exact Hcs.
  - apply Frozen with (m := m); [reflexivity | exact Hguard | exact Hcs].
Qed.

(** A call on a frozen client that returns no error has a misbehaviour
    strictly below the frozen height, and freezes the client there. *)
Lemma success_on_frozen
    (cs cs' : ClientState) (ctx : SdkContext) (cdc : BinaryMarshaler)
    (clientStore : KVStore) (misbehaviour : ExportedMisbehaviour) :
  IsFrozen cs = true ->
  snd (CheckMisbehaviourAndUpdateState cs ctx cdc clientStore misbehaviour)
    = (Some cs', None) ->
  exists m,
    misbehaviour = TendermintMisbehaviour m
    /\ cs' = set_FrozenHeight (Misbehaviour_GetHeight m) cs
    /\ Height_LT (Misbehaviour_GetHeight m) (FrozenHeight cs) = true.
Proof.
  intros Hfrozen Hok.
  destruct (CheckMisbehaviourAndUpdateState_outcome cs ctx cdc clientStore misbehaviour)
    as [f e Hcs | f m Hm Hguard Hcs]; cbn [snd] in Hok.
  - discriminate Hok.
  - exists m. split; [exact Hm |]. split; [congruence |].
    rewrite Hfrozen in Hguard. cbn [andb] in Hguard.
    apply Height_not_LTE. exact Hguard.
Qed.

(** One submission to a frozen client leaves it frozen, at the same height
    or at an earlier one. *)
Lemma submitMisbehaviour_frozen
    (cs : ClientState)
    (call : SdkContext * BinaryMarshaler * KVStore * ExportedMisbehaviour) :
  IsFrozen cs = true ->
  nonZeroHeight call ->
  IsFrozen (submitMisbehaviour cs call) = true
  /\ Height_LTE (FrozenHeight (submitMisbehaviour cs call)) (FrozenHeight cs) = true.
Proof.
  intros Hfrozen Hnz. destruct call as [[[ctx cdc] clientStore] misbehaviour].
  unfold submitMisbehaviour.
  destruct (snd (CheckMisbehaviourAndUpdateState cs ctx cdc clientStore misbehaviour))
    as [[cs' |] [e |]] eqn:Hr;
    try (split; [exact Hfrozen | apply Height_LTE_refl]).
  destruct (success_on_frozen cs cs' ctx cdc clientStore misbehaviour Hfrozen Hr)
    as (m & Hm & Hcs' & Hlt).
  subst misbehaviour cs'. cbn in Hnz.
  split.
  - unfold IsFrozen. rewrite set_FrozenHeight_FrozenHeight, Hnz. reflexivity.
  - rewrite set_FrozenHeight_FrozenHeight. apply Height_LT_LTE. exact Hlt.
Qed.

Lemma submitAll_frozen
    (calls : list (SdkContext * BinaryMarshaler * KVStore * ExportedMisbehaviour))
    (cs : ClientState) :
  IsFrozen cs = true ->
  Forall nonZeroHeight calls ->
  IsFrozen (submitAll cs calls) = true
  /\ Height_LTE (FrozenHeight (submitAll cs calls)) (FrozenHeight cs) = true.
Proof.
  unfold submitAll. revert cs.
  induction calls as [| call calls IH]; intros cs Hfrozen Hall.
  - split; [exact Hfrozen | apply Height_LTE_refl].
  - inversion Hall as [| ? ? Hcall Hrest]; subst.
    destruct (submitMisbehaviour_frozen cs call Hfrozen Hcall) as [Hf1 Hle1].
    destruct (IH (submitMisbehaviour cs call) Hf1 Hrest) as [Hf2 Hle2].
    cbn [fold_left]. split; [exact Hf2 |].
    eapply Height_LTE_trans; eassumption.
Qed.

(** The already-frozen error comes from the frozen test and from nowhere
    else. *)
Lemma already_frozen_iff_guard
    (cs : ClientState) (ctx : SdkContext) (cdc : BinaryMarshaler)
    (clientStore : KVStore) (m : Misbehaviour) :
  AlreadyFrozen
    (snd (CheckMisbehaviourAndUpdateState cs ctx cdc clientStore
            (TendermintMisbehaviour m)))
  <-> IsFrozen cs && Height_LTE (FrozenHeight cs) (Misbehaviour_GetHeight m) = true.
Proof.
  rewrite CheckMisbehaviourAndUpdateState_unfold. cbv zeta.
  destruct (IsFrozen cs && Height_LTE (FrozenHeight cs) (Misbehaviour_GetHeight m)).
  { split; [reflexivity |]. intros _. eexists _, _. reflexivity. }
  split; [| discriminate]. intros (frozen & h & Hr). exfalso.
  destruct (GetConsensusState clientStore cdc (TrustedHeight (Header1 m)))
    as [e1 | c1]; [discriminate |].
  destruct (GetConsensusState clientStore cdc (TrustedHeight (Header2 m)))
    as [e2 | c2]; [discriminate |].
  destruct (tooOld _ _ _); [discriminate |].
  match type of Hr with context [verifyBoth ?f _ _ _ _] => set (f0 := f) in * end.
  destruct (verifyBoth_outcome f0 ctx m c1 c2)
    as [(err & which & Herr & _) | [Hok _]];
    cbv zeta in *; rewrite Hr in *; discriminate.
Qed.

End OutcomeLemmas.

(** * The claims *)

Section Claims.
Context `{Collaborators}.

(** C3: when the client is frozen and its frozen height is at or before
    the height of the misbehaviour, [CheckMisbehaviourAndUpdateState]
    returns the already-frozen error at once: the log of the call is empty,
    so no consensus state was read from the store and no header was
    verified. *)
Theorem C3_already_frozen_rejected_first
    (cs : ClientState) (ctx : SdkContext) (cdc : BinaryMarshaler)
    (clientStore : KVStore) (m : Misbehaviour) :
  IsFrozen cs = true ->
  Height_LTE (FrozenHeight cs) (Misbehaviour_GetHeight m) = true ->
  let r := CheckMisbehaviourAndUpdateState cs ctx cdc clientStore
             (TendermintMisbehaviour m) in
  snd r = (None, Some (Wrap ErrInvalidMisbehaviour
                         (MsgAlreadyFrozen (FrozenHeight cs)
                            (Misbehaviour_GetHeight m))))
  /\ AlreadyFrozen (snd r)
  /\ events (fst r) = []
  /\ ~ readsStore (fst r)
  /\ ~ reachesHeaderVerification (fst r).
Proof.
  intros Hfrozen Hlte r. subst r.
  rewrite CheckMisbehaviourAndUpdateState_unfold. cbv zeta.
  rewrite Hfrozen, Hlte. cbn [andb fst snd events].
  repeat split.
  - eexists _, _. reflexivity.
  - intros [h []].
  - intros (c & hd & []).
Qed.

(** C6: whenever [CheckMisbehaviourAndUpdateState] returns an error, the
    client state it returns is nil and the variable [cs], the only client
    state the call can write to, still holds the input. *)
Theorem C6_error_atomicity
    (cs : ClientState) (ctx : SdkContext) (cdc : BinaryMarshaler)
    (clientStore : KVStore) (misbehaviour : ExportedMisbehaviour) (err : Error) :
  snd (snd (CheckMisbehaviourAndUpdateState cs ctx cdc clientStore misbehaviour))
    = Some err ->
  fst (snd (CheckMisbehaviourAndUpdateState cs ctx cdc clientStore misbehaviour))
    = None
  /\ cs_local (fst (CheckMisbehaviourAndUpdateState cs ctx cdc clientStore misbehaviour))
    = cs.
Proof.
  intros Herr.
  destruct (CheckMisbehaviourAndUpdateState_outcome cs ctx cdc clientStore misbehaviour)
    as [f e Hcs | f m Hm Hguard Hcs].
  - split; [reflexivity | exact Hcs].
  - discriminate Herr.
Qed.

(** C8: when [CheckMisbehaviourAndUpdateState] returns no error, it returns
    the input client state with [FrozenHeight] set to the height of the
    misbehaviour, and every other field is the input's. *)
Theorem C8_success_frame
    (cs : ClientState) (ctx : SdkContext) (cdc : BinaryMarshaler)
    (clientStore : KVStore) (misbehaviour : ExportedMisbehaviour) :
  snd (snd (CheckMisbehaviourAndUpdateState cs ctx cdc clientStore misbehaviour))
    = None ->
  exists m cs',
    misbehaviour = TendermintMisbehaviour m
    /\ fst (snd (CheckMisbehaviourAndUpdateState cs ctx cdc clientStore misbehaviour))
       = Some cs'
    /\ cs' = set_FrozenHeight (Misbehaviour_GetHeight m) cs
    /\ FrozenHeight cs' = Misbehaviour_GetHeight m
    /\ ChainId cs' = ChainId cs
    /\ TrustLevel cs' = TrustLevel cs
    /\ TrustingPeriod cs' = TrustingPeriod cs
    /\ UnbondingPeriod cs' = UnbondingPeriod cs
    /\ MaxClockDrift cs' = MaxClockDrift cs
    /\ LatestHeight cs' = LatestHeight cs.
Proof.
  intros Hok.
  destruct (CheckMisbehaviourAndUpdateState_outcome cs ctx cdc clientStore misbehaviour)
    as [f e Hcs | f m Hm Hguard Hcs].
  - discriminate Hok.
  - exists m, (set_FrozenHeight (Misbehaviour_GetHeight m) cs).
    repeat split. exact Hm.
Qed.

(** C9: when the consensus parameters of the context are nil, or their
    evidence parameters are, no call is rejected as stale, whatever the age
    of the misbehaviour; a call that passes the frozen check and finds both
    trusted consensus states goes on with the verification of the headers,
    the first header first. *)
Theorem C9_nil_params_skip_staleness
    (cs : ClientState) (ctx : SdkContext) (cdc : BinaryMarshaler)
    (clientStore : KVStore) (m : Misbehaviour) :
  (ConsensusParams ctx = None
   \/ exists params, ConsensusParams ctx = Some params /\ Evidence params = None) ->
  let r := CheckMisbehaviourAndUpdateState cs ctx cdc clientStore
             (TendermintMisbehaviour m) in
  let h1 := TrustedHeight (Header1 m) in
  let h2 := TrustedHeight (Header2 m) in
  ~ StaleMisbehaviour (snd r)
  /\ forall consState1 consState2,
       IsFrozen cs && Height_LTE (FrozenHeight cs) (Misbehaviour_GetHeight m) = false ->
       GetConsensusState clientStore cdc h1 = inr consState1 ->
       GetConsensusState clientStore cdc h2 = inr consState2 ->
       r = verifyBoth
             (mkFrame _ cs [EvGetConsensusState h1; EvGetConsensusState h2])
             ctx m consState1 consState2
       /\ reachesHeaderVerification (fst r)
       /\ exists rest,
            events (fst r)
              = [EvGetConsensusState h1; EvGetConsensusState h2;
                 EvCheckMisbehaviourHeader consState1 (Header1 m)] ++ rest.
Proof.
  intros Hnil r h1 h2. subst r h1 h2.
  assert (Hold : forall d b, tooOld (ConsensusParams ctx) d b = false).
  { intros d b. unfold tooOld.
    destruct Hnil as [Hn | (params & Hp & He)]; [rewrite Hn | rewrite Hp, He];
      reflexivity. }
  rewrite CheckMisbehaviourAndUpdateState_unfold. cbv zeta. rewrite Hold.
  split.
  - destruct (IsFrozen cs && Height_LTE (FrozenHeight cs) (Misbehaviour_GetHeight m)).
    { intros (a & b & c & d & Hr). discriminate Hr. }
    destruct (GetConsensusState clientStore cdc (TrustedHeight (Header1 m)))
      as [e1 | consState1].
    { intros (a & b & c & d & Hr). discriminate Hr. }
    destruct (GetConsensusState clientStore cdc (TrustedHeight (Header2 m)))
      as [e2 | consState2].
    { intros (a & b & c & d & Hr). discriminate Hr. }
    apply verifyBoth_not_stale.
  - intros consState1 consState2 Hguard H1 H2. rewrite Hguard, H1, H2.
    split; [reflexivity |].
    match goal with |- context [verifyBoth ?f _ _ _ _] => set (f0 := f) end.
    destruct (verifyBoth_events f0 ctx m consState1 consState2) as [rest Hev].
    split.
    + exists consState1, (Header1 m). rewrite Hev. apply in_or_app. right. left.
      reflexivity.
    + exists rest. rewrite Hev. reflexivity.
Qed.

(** C1, as the code has it: once the age of a misbehaviour has been
    computed and the context carries evidence parameters, the call is
    rejected as stale exactly when the age in time exceeds the maximum age
    in time OR the age in blocks exceeds the maximum age in blocks; it is
    then rejected before any header is verified.  It goes on with the
    verification of the headers exactly when neither age exceeds its
    maximum. *)
Theorem C1_stale_when_either_age_exceeds
    (cs : ClientState) (ctx : SdkContext) (cdc : BinaryMarshaler)
    (clientStore : KVStore) (m : Misbehaviour)
    (consState1 consState2 : ConsensusState)
    (params : AbciConsensusParams) (evidence : EvidenceParams) :
  IsFrozen cs && Height_LTE (FrozenHeight cs) (Misbehaviour_GetHeight m) = false ->
  GetConsensusState clientStore cdc (TrustedHeight (Header1 m)) = inr consState1 ->
  GetConsensusState clientStore cdc (TrustedHeight (Header2 m)) = inr consState2 ->
  ConsensusParams ctx = Some params ->
  Evidence params = Some evidence ->
  let ageDuration := Time_Sub (BlockTime ctx) (Misbehaviour_GetTime m) in
  let r := CheckMisbehaviourAndUpdateState cs ctx cdc clientStore
             (TendermintMisbehaviour m) in
  let f := mkFrame _ cs [EvGetConsensusState (TrustedHeight (Header1 m));
                         EvGetConsensusState (TrustedHeight (Header2 m))] in
  (StaleMisbehaviour (snd r) <->
     ageDuration > MaxAgeDuration evidence
     \/ ageBlocks cs m > MaxAgeNumBlocks evidence)
  /\ (ageDuration > MaxAgeDuration evidence
      \/ ageBlocks cs m > MaxAgeNumBlocks evidence ->
      r = (f, (None, Some (Wrap ErrInvalidMisbehaviour
                             (MsgAge ageDuration (ageBlocks cs m)
                                (MaxAgeDuration evidence)
                                (MaxAgeNumBlocks evidence)))))
      /\ ~ reachesHeaderVerification (fst r))
  /\ (ageDuration <= MaxAgeDuration evidence
      /\ ageBlocks cs m <= MaxAgeNumBlocks evidence ->
      r = verifyBoth f ctx m consState1 consState2
      /\ reachesHeaderVerification (fst r)).
Proof.
  intros Hguard H1 H2 Hp He ageDuration r f. subst r.
  rewrite CheckMisbehaviourAndUpdateState_unfold. cbv zeta.
  rewrite Hguard, H1, H2. fold ageDuration. fold f.
  assert (Hold : tooOld (ConsensusParams ctx) ageDuration (ageBlocks cs m) = true
                 <-> ageDuration > MaxAgeDuration evidence
                     \/ ageBlocks cs m > MaxAgeNumBlocks evidence).
  { unfold tooOld. rewrite Hp, He. rewrite orb_true_iff, !Z.gtb_gt. lia. }
  assert (Hmax : maxAge (ConsensusParams ctx)
                 = (MaxAgeDuration evidence, MaxAgeNumBlocks evidence)).
  { unfold maxAge. rewrite Hp. destruct params as [ev]. cbn in He. subst ev.
    reflexivity. }
  destruct (tooOld (ConsensusParams ctx) ageDuration (ageBlocks cs m)) eqn:Hstale.
  - assert (Hex : ageDuration > MaxAgeDuration evidence
                  \/ ageBlocks cs m > MaxAgeNumBlocks evidence)
      by (apply Hold; reflexivity).
    rewrite Hmax. cbn [fst snd]. split; [| split].
    + split; [intros _; exact Hex | intros _; eexists _, _, _, _; reflexivity].
    + intros _. split; [reflexivity |].
      intros (c & hd & Hin). cbn in Hin.
      destruct Hin as [Hin | [Hin | []]]; discriminate Hin.
    + intros [Hd Hb]. lia.
  - assert (Hnot : ~ (ageDuration > MaxAgeDuration evidence
                      \/ ageBlocks cs m > MaxAgeNumBlocks evidence)).
    { intros Hex. apply Hold in Hex. discriminate Hex. }
    split; [| split].
    + split; [intros Hs; exfalso; exact (verifyBoth_not_stale _ _ _ _ _ Hs)
             | intros Hex; contradiction].
    + intros Hex. contradiction.
    + intros _. split; [reflexivity |].
      destruct (verifyBoth_events f ctx m consState1 consState2) as [rest Hev].
      exists consState1, (Header1 m). rewrite Hev. apply in_or_app. right. left.
      reflexivity.
Qed.

(** C5: in the per-header check, when the trusted validator set and the
    commit decode and the trusted fields match the consensus state, a
    current time that is an unbonding period or more past the timestamp of
    the trusted consensus state makes the check fail with
    [ErrUnbondingPeriodExpired]; the commit verification is not called, so
    the commit plays no part. *)
Theorem C5_unbonding_period_expired
    (f : Frame) (consState : ConsensusState) (header : Header) (now : Time)
    (valset : TmValidatorSet) (commit : TmCommit) :
  ValidatorSetFromProto (TrustedValidators header) = inr valset ->
  CommitFromProto (Commit header) = inr commit ->
  checkTrustedHeader header consState = None ->
  Time_Sub now (Timestamp consState) >= UnbondingPeriod (cs_local f) ->
  let r := run_checkMisbehaviourHeader f consState header now in
  snd r = Some (Wrap ErrUnbondingPeriodExpired
                  (MsgUnbondingPeriod (Time_Sub now (Timestamp consState))
                     (UnbondingPeriod (cs_local f))))
  /\ Cause (Wrap ErrUnbondingPeriodExpired
              (MsgUnbondingPeriod (Time_Sub now (Timestamp consState))
                 (UnbondingPeriod (cs_local f))))
     = ErrUnbondingPeriodExpired
  /\ events (fst r)
     = events f ++ [EvCheckMisbehaviourHeader consState header;
                    EvValidatorSetFromProto; EvCommitFromProto;
                    EvCheckTrustedHeader]
  /\ (~ reachesCommitVerification f -> ~ reachesCommitVerification (fst r)).
Proof.
  intros Hv Hc Ht Hexp r. subst r.
  rewrite checkMisbehaviourHeader_unfold. cbv zeta. rewrite Hv, Hc, Ht.
  assert (Hge : (Time_Sub now (Timestamp consState) >=? UnbondingPeriod (cs_local f))
                = true) by (apply Z.geb_le; lia).
  rewrite Hge. cbn [fst snd events]. rewrite <- app_assoc. cbn [app].
  repeat split.
  intros Hno (chainID & Hin). apply in_app_or in Hin.
  destruct Hin as [Hin | Hin].
  - apply Hno. exists chainID. exact Hin.
  - cbn in Hin. destruct Hin as [Hin | [Hin | [Hin | [Hin | []]]]]; discriminate Hin.
Qed.


(** C4, as the code has it: when the version number of the misbehaviour's
    height is the version number of the client's latest height, the age in
    blocks is the [int64] reading of the [uint64] difference of the two
    version heights, which is their difference whenever that difference
    fits a signed 64-bit integer; in any other version the age in blocks is
    0, and then, for a maximum age in blocks that is not negative, the
    staleness test depends on the age in time alone. *)
Theorem C4_ageBlocks_by_version (cs : ClientState) (m : Misbehaviour) :
  let latest := LatestHeight cs in
  let h := Misbehaviour_GetHeight m in
  (GetEpochNumber h = VersionNumber latest ->
     ageBlocks cs m
       = Int64.of_unsigned (Int64.usub (VersionHeight latest) (GetEpochHeight h))
     /\ (Int64.is_int64 (VersionHeight latest - GetEpochHeight h) ->
         ageBlocks cs m = VersionHeight latest - GetEpochHeight h))
  /\ (GetEpochNumber h <> VersionNumber latest ->
      ageBlocks cs m = 0
      /\ forall (evidence : EvidenceParams) (ageDuration : Duration),
           0 <= MaxAgeNumBlocks evidence ->
           tooOld (Some {| Evidence := Some evidence |}) ageDuration (ageBlocks cs m)
             = (ageDuration >? MaxAgeDuration evidence)).
Proof.
  intros latest h. subst latest h. unfold ageBlocks. split.
  - intros Hsame. apply Z.eqb_eq in Hsame. rewrite Hsame. cbv zeta.
    split; [reflexivity |]. intros Hfits. apply of_unsigned_usub_exact. exact Hfits.
  - intros Hother. apply Z.eqb_neq in Hother. rewrite Hother.
    split; [reflexivity |]. intros evidence ageDuration Hmax.
    unfold tooOld. cbn [Evidence].
    assert (Hb : (0 >? MaxAgeNumBlocks evidence) = false).
    { destruct (0 >? MaxAgeNumBlocks evidence) eqn:E;
        [apply Z.gtb_gt in E; lia | reflexivity]. }
    rewrite Hb. apply orb_false_r.
Qed.

(** C10, as the code has it: for a misbehaviour in the version of the
    client whose version height is greater than the client's latest version
    height, the [uint64] subtraction wraps to the difference plus 2^64, and
    the conversion to [int64] reads it back in two's complement: when the
    gap is at most 2^63 the age in blocks is the negative difference
    itself, and only a gap beyond 2^63 gives a positive age, the difference
    plus 2^64.  A negative age never exceeds a maximum age in blocks that
    is not negative. *)
Theorem C10_ageBlocks_of_later_height (cs : ClientState) (m : Misbehaviour) :
  Height_wf (LatestHeight cs) ->
  Height_wf (Misbehaviour_GetHeight m) ->
  GetEpochNumber (Misbehaviour_GetHeight m) = VersionNumber (LatestHeight cs) ->
  VersionHeight (LatestHeight cs) < GetEpochHeight (Misbehaviour_GetHeight m) ->
  let latest := VersionHeight (LatestHeight cs) in
  let infraction := GetEpochHeight (Misbehaviour_GetHeight m) in
  Int64.usub latest infraction = latest - infraction + Int64.modulus
  /\ ageBlocks cs m
     = (if infraction - latest <=? Int64.half_modulus
        then latest - infraction
        else latest - infraction + Int64.modulus)
  /\ (infraction - latest <= Int64.half_modulus ->
      ageBlocks cs m < 0
      /\ forall (evidence : EvidenceParams) (ageDuration : Duration),
           0 <= MaxAgeNumBlocks evidence ->
           tooOld (Some {| Evidence := Some evidence |}) ageDuration (ageBlocks cs m)
             = (ageDuration >? MaxAgeDuration evidence))
  /\ (Int64.half_modulus < infraction - latest -> 0 < ageBlocks cs m).
Proof.
  intros [_ Hl] [_ Hi] Hsame Hlt latest infraction.
  change (Int64.is_uint64 latest) in Hl.
  change (Int64.is_uint64 infraction) in Hi.
  change (latest < infraction) in Hlt.
  assert (Hage : ageBlocks cs m
                 = if infraction - latest <=? Int64.half_modulus
                   then latest - infraction
                   else latest - infraction + Int64.modulus).
  { unfold ageBlocks. apply Z.eqb_eq in Hsame. rewrite Hsame. cbv zeta.
    fold latest. fold infraction.
    rewrite of_unsigned_usub by assumption.
    unfold Int64.is_uint64, Int64.modulus in Hl, Hi.
    unfold Int64.min_signed, Int64.max_signed, Int64.half_modulus, Int64.modulus.
    destruct (latest - infraction <? - 2 ^ 63) eqn:E1;
      destruct (infraction - latest <=? 2 ^ 63) eqn:E2;
      try apply Z.ltb_lt in E1; try apply Z.ltb_ge in E1;
      try apply Z.leb_le in E2; try apply Z.leb_gt in E2; try lia.
    destruct (2 ^ 63 - 1 <? latest - infraction) eqn:E3;
      [apply Z.ltb_lt in E3; lia | reflexivity]. }
  split; [apply usub_borrow; assumption |].
  split; [exact Hage |].
  unfold Int64.is_uint64, Int64.modulus in Hl, Hi.
  unfold Int64.half_modulus, Int64.modulus in *.
  split.
  - intros Hgap.
    assert (Hneg : ageBlocks cs m < 0).
    { rewrite Hage.
      destruct (infraction - latest <=? 2 ^ 63) eqn:E;
        [lia | apply Z.leb_gt in E; lia]. }
    split; [exact Hneg |]. intros evidence ageDuration Hmax.
    unfold tooOld. cbn [Evidence].
    assert (Hb : (ageBlocks cs m >? MaxAgeNumBlocks evidence) = false).
    { destruct (ageBlocks cs m >? MaxAgeNumBlocks evidence) eqn:E;
        [apply Z.gtb_gt in E; lia | reflexivity]. }
    rewrite Hb. apply orb_false_r.
  - intros Hgap. rewrite Hage.
    destruct (infraction - latest <=? 2 ^ 63) eqn:E;
      [apply Z.leb_le in E; lia | lia].
Qed.

(** C2, as the code has it: once the client is frozen at a height h, then
    after any sequence of further submissions of misbehaviour (of non-zero
    height) the client is still frozen, at h or at an earlier height and
    never at a later one.  A subsequent check fails with the already-frozen
    error exactly when the frozen height the client then has is at or
    before the height of the misbehaviour; so it fails whenever h is at or
    before that height, and a misbehaviour below the frozen height is not
    rejected as already frozen.  When such a check returns no error, it
    returns the client with the frozen height set to the height of the
    misbehaviour, strictly earlier than before. *)
Theorem C2_frozen_height_only_moves_earlier
    (cs : ClientState)
    (calls : list (SdkContext * BinaryMarshaler * KVStore * ExportedMisbehaviour)) :
  IsFrozen cs = true ->
  Forall nonZeroHeight calls ->
  IsFrozen (submitAll cs calls) = true
  /\ Height_LTE (FrozenHeight (submitAll cs calls)) (FrozenHeight cs) = true
  /\ (forall ctx cdc clientStore m,
        Height_LTE (FrozenHeight cs) (Misbehaviour_GetHeight m) = true ->
        AlreadyFrozen
          (snd (CheckMisbehaviourAndUpdateState (submitAll cs calls) ctx cdc
                  clientStore (TendermintMisbehaviour m))))
  /\ (forall ctx cdc clientStore m,
        AlreadyFrozen
          (snd (CheckMisbehaviourAndUpdateState (submitAll cs calls) ctx cdc
                  clientStore (TendermintMisbehaviour m)))
        <-> Height_LTE (FrozenHeight (submitAll cs calls))
              (Misbehaviour_GetHeight m) = true)
  /\ (forall ctx cdc clientStore m,
        Height_LT (Misbehaviour_GetHeight m)
          (FrozenHeight (submitAll cs calls)) = true ->
        ~ AlreadyFrozen
            (snd (CheckMisbehaviourAndUpdateState (submitAll cs calls) ctx cdc
                    clientStore (TendermintMisbehaviour m))))
  /\ (forall ctx cdc clientStore misbehaviour cs',
        snd (CheckMisbehaviourAndUpdateState (submitAll cs calls) ctx cdc
               clientStore misbehaviour) = (Some cs', None) ->
        exists m,
          misbehaviour = TendermintMisbehaviour m
          /\ cs' = set_FrozenHeight (Misbehaviour_GetHeight m) (submitAll cs calls)
          /\ FrozenHeight cs' = Misbehaviour_GetHeight m
          /\ Height_LT (FrozenHeight cs') (FrozenHeight (submitAll cs calls)) = true).
Proof.
  intros Hfrozen Hall.
  destruct (submitAll_frozen calls cs Hfrozen Hall) as [Hf Hle].
  assert (Hiff : forall ctx cdc clientStore m,
             AlreadyFrozen
               (snd (CheckMisbehaviourAndUpdateState (submitAll cs calls) ctx cdc
                       clientStore (TendermintMisbehaviour m)))
             <-> Height_LTE (FrozenHeight (submitAll cs calls))
                   (Misbehaviour_GetHeight m) = true).
  { intros ctx cdc clientStore m. rewrite already_frozen_iff_guard, Hf.
    reflexivity. }
  split; [exact Hf |]. split; [exact Hle |]. split; [| split; [| split]].
  - intros ctx cdc clientStore m Hm. apply Hiff.
    exact (Height_LTE_trans _ _ _ Hle Hm).
  - exact Hiff.
  - intros ctx cdc clientStore m Hlt Hrej. apply Hiff in Hrej.
    apply Height_not_LTE in Hlt. congruence.
  - intros ctx cdc clientStore misbehaviour cs' Hok.
    destruct (success_on_frozen _ cs' ctx cdc clientStore misbehaviour Hf Hok)
      as (m & Hm & Hcs' & Hlt).
    exists m. subst cs'. rewrite set_FrozenHeight_FrozenHeight.
    repeat split; assumption.
Qed.

End Claims.

(** * The claims on the instance [Sim] *)

Import Sim.

(** The client is frozen at (1, 50); a misbehaviour at (1, 95) is refused
    before anything is read. *)
Lemma C3_witness :
  IsFrozen (frozenAt (mkHeight 1 50)) = true
  /\ Height_LTE (mkHeight 1 50) (mkHeight 1 95) = true
  /\ snd (CheckMisbehaviourAndUpdateState (frozenAt (mkHeight 1 50)) ctx tt store
            (TendermintMisbehaviour (misbehaviourAt (mkHeight 1 95) 70)))
     = (None, Some (Wrap ErrInvalidMisbehaviour
                      (MsgAlreadyFrozen (mkHeight 1 50) (mkHeight 1 95))))
  /\ events (fst (CheckMisbehaviourAndUpdateState (frozenAt (mkHeight 1 50)) ctx
                    tt store
                    (TendermintMisbehaviour (misbehaviourAt (mkHeight 1 95) 70))))
     = [].
Proof.
  split; [reflexivity |]. split; [reflexivity |].
  destruct (C3_already_frozen_rejected_first (H0 := collaborators)
              (frozenAt (mkHeight 1 50)) ctx tt store
              (misbehaviourAt (mkHeight 1 95) 70) eq_refl eq_refl)
    as (Hr & _ & Hev & _).
  split; [exact Hr | exact Hev].
Defined.

(** Commits signed by 60 of 100 fail the trust level 2/3: an error, a nil
    client state, and [cs] as it was. *)
Lemma C6_witness :
  snd (snd (CheckMisbehaviourAndUpdateState client ctx tt store
              (TendermintMisbehaviour (misbehaviourAt (mkHeight 1 95) 60))))
    = Some (Wrap (Wrap ErrInvalidMisbehaviour
                    (MsgTooMuchChange
                       (ErrCollaborator "insufficient trusted voting power")))
              (MsgVerifyingHeaderFailed Header1Id))
  /\ fst (snd (CheckMisbehaviourAndUpdateState client ctx tt store
                 (TendermintMisbehaviour (misbehaviourAt (mkHeight 1 95) 60))))
     = None
  /\ cs_local (fst (CheckMisbehaviourAndUpdateState client ctx tt store
                      (TendermintMisbehaviour (misbehaviourAt (mkHeight 1 95) 60))))
     = client.
Proof.
  split; [reflexivity |].
  exact (C6_error_atomicity (H0 := collaborators) client ctx tt store
           (TendermintMisbehaviour (misbehaviourAt (mkHeight 1 95) 60)) _ eq_refl).
Defined.

(** Commits signed by 70 of 100 pass: the client comes back frozen at the
    height of the misbehaviour, and otherwise as it was. *)
Lemma C8_witness :
  snd (snd (CheckMisbehaviourAndUpdateState client ctx tt store
              (TendermintMisbehaviour (misbehaviourAt (mkHeight 1 95) 70))))
    = None
  /\ exists m cs',
       TendermintMisbehaviour (misbehaviourAt (mkHeight 1 95) 70)
         = TendermintMisbehaviour m
       /\ fst (snd (CheckMisbehaviourAndUpdateState client ctx tt store
                      (TendermintMisbehaviour (misbehaviourAt (mkHeight 1 95) 70))))
          = Some cs'
       /\ cs' = set_FrozenHeight (Misbehaviour_GetHeight m) client
       /\ FrozenHeight cs' = Misbehaviour_GetHeight m
       /\ ChainId cs' = ChainId client
       /\ TrustLevel cs' = TrustLevel client
       /\ TrustingPeriod cs' = TrustingPeriod client
       /\ UnbondingPeriod cs' = UnbondingPeriod client
       /\ MaxClockDrift cs' = MaxClockDrift client
       /\ LatestHeight cs' = LatestHeight client.
Proof.
  split; [reflexivity |].
  exact (C8_success_frame (H0 := collaborators) client ctx tt store
           (TendermintMisbehaviour (misbehaviourAt (mkHeight 1 95) 70)) eq_refl).
Defined.

(** Forty-nine hours after the headers, beyond the 48 hours of the evidence
    parameters; without consensus parameters the call is not stale and the
    first header is verified. *)
Lemma C9_witness :
  ConsensusParams lateCtxNoParams = None
  /\ ~ StaleMisbehaviour
         (snd (CheckMisbehaviourAndUpdateState client lateCtxNoParams tt store
                 (TendermintMisbehaviour (misbehaviourAt (mkHeight 1 95) 70))))
  /\ reachesHeaderVerification
       (fst (CheckMisbehaviourAndUpdateState client lateCtxNoParams tt store
               (TendermintMisbehaviour (misbehaviourAt (mkHeight 1 95) 70)))).
Proof.
  split; [reflexivity |].
  destruct (C9_nil_params_skip_staleness (H0 := collaborators) client lateCtxNoParams tt store
              (misbehaviourAt (mkHeight 1 95) 70) (or_introl eq_refl))
    as [Hnot Hgo].
  split; [exact Hnot |].
  destruct (Hgo trusted trusted eq_refl eq_refl eq_refl) as (_ & Hreach & _).
  exact Hreach.
Defined.

(** Forty-nine hours after the headers and five blocks: the age in time
    alone makes the misbehaviour stale. *)
Lemma C1_witness :
  Time_Sub (BlockTime lateCtx)
    (Misbehaviour_GetTime (misbehaviourAt (mkHeight 1 95) 70)) = 49 * hour
  /\ ageBlocks client (misbehaviourAt (mkHeight 1 95) 70) = 5
  /\ CheckMisbehaviourAndUpdateState client lateCtx tt store
       (TendermintMisbehaviour (misbehaviourAt (mkHeight 1 95) 70))
     = (mkFrame _ client [EvGetConsensusState (mkHeight 1 90);
                          EvGetConsensusState (mkHeight 1 90)],
        (None, Some (Wrap ErrInvalidMisbehaviour
                       (MsgAge (49 * hour) 5 (48 * hour) 100000)))).
Proof.
  split; [reflexivity |]. split; [reflexivity |].
  destruct (C1_stale_when_either_age_exceeds (H0 := collaborators) client lateCtx tt store
              (misbehaviourAt (mkHeight 1 95) 70) trusted trusted
              {| Evidence := Some {| MaxAgeNumBlocks := 100000;
                                     MaxAgeDuration := 48 * hour |} |}
              {| MaxAgeNumBlocks := 100000; MaxAgeDuration := 48 * hour |}
              eq_refl eq_refl eq_refl eq_refl eq_refl)
    as (_ & Hstale & _).
  destruct (Hstale (or_introl eq_refl)) as [Hr _].
  exact Hr.
Defined.

(** The trusted consensus state is exactly an unbonding period old. *)
Lemma C5_witness :
  Time_Sub (BlockTime expiredCtx) (Timestamp trusted) = UnbondingPeriod client
  /\ snd (run_checkMisbehaviourHeader (emptyFrame client) trusted
            (header (mkHeight 1 95) "testchain-1" 70) (BlockTime expiredCtx))
     = Some (Wrap ErrUnbondingPeriodExpired
               (MsgUnbondingPeriod (504 * hour) (504 * hour)))
  /\ events (fst (run_checkMisbehaviourHeader (emptyFrame client) trusted
                    (header (mkHeight 1 95) "testchain-1" 70)
                    (BlockTime expiredCtx)))
     = [EvCheckMisbehaviourHeader trusted (header (mkHeight 1 95) "testchain-1" 70);
        EvValidatorSetFromProto; EvCommitFromProto; EvCheckTrustedHeader].
Proof.
  split; [reflexivity |].
  assert (Hexp : Time_Sub (BlockTime expiredCtx) (Timestamp trusted)
                 >= UnbondingPeriod (cs_local (emptyFrame client)))
    by (vm_compute; discriminate).
  destruct (C5_unbonding_period_expired (H0 := collaborators) (emptyFrame client) trusted
              (header (mkHeight 1 95) "testchain-1" 70) (BlockTime expiredCtx)
              100 ("testchain-1"%string, 70) eq_refl eq_refl eq_refl Hexp)
    as (Hr & _ & Hev & _).
  split; [exact Hr | exact Hev].
Defined.



(** Frozen at (1, 97), then two submissions: the first moves the frozen
    height down to (1, 95), the second, at (1, 96), is refused; a third
    check at (1, 97) is refused as well. *)
Lemma C2_witness :
  IsFrozen (frozenAt (mkHeight 1 97)) = true
  /\ FrozenHeight (submitAll (frozenAt (mkHeight 1 97)) submissions) = mkHeight 1 95
  /\ IsFrozen (submitAll (frozenAt (mkHeight 1 97)) submissions) = true
  /\ Height_LTE (FrozenHeight (submitAll (frozenAt (mkHeight 1 97)) submissions))
       (mkHeight 1 97) = true
  /\ AlreadyFrozen
       (snd (CheckMisbehaviourAndUpdateState
               (submitAll (frozenAt (mkHeight 1 97)) submissions) ctx tt store
               (TendermintMisbehaviour (misbehaviourAt (mkHeight 1 97) 70)))).
Proof.
  split; [reflexivity |]. split; [reflexivity |].
  assert (Hall : Forall (nonZeroHeight (H0 := collaborators)) submissions)
    by (repeat constructor).
  destruct (C2_frozen_height_only_moves_earlier (H0 := collaborators)
              (frozenAt (mkHeight 1 97)) submissions eq_refl Hall)
    as (Hf & Hle & Hrej & _).
  split; [exact Hf |]. split; [exact Hle |].
  exact (Hrej ctx tt store (misbehaviourAt (mkHeight 1 97) 70) eq_refl).
Defined.

(** Latest height (1, 100), misbehaviour at (1, 95): five blocks. *)
Lemma C4_witness :
  Int64.is_int64 (100 - 95)
  /\ ageBlocks client (misbehaviourAt (mkHeight 1 95) 70) = 100 - 95
  /\ ageBlocks client (misbehaviourAt (mkHeight 3 95) 70) = 0.
Proof.
  assert (Hfits : Int64.is_int64 (100 - 95))
    by (unfold Int64.is_int64, Int64.min_signed, Int64.max_signed; lia).
  split; [exact Hfits |].
  split.
  - destruct (C4_ageBlocks_by_version (H0 := collaborators) client
                (misbehaviourAt (mkHeight 1 95) 70)) as [Hsame _].
    exact (proj2 (Hsame eq_refl) Hfits).
  - destruct (C4_ageBlocks_by_version (H0 := collaborators) client
                (misbehaviourAt (mkHeight 3 95) 70)) as [_ Hother].
    apply Hother. cbn. lia.
Defined.

(** Latest height (1, 100), misbehaviour at (1, 101): minus one block. *)
Lemma C10_witness :
  Height_wf (LatestHeight client)
  /\ Height_wf (mkHeight 1 101)
  /\ Int64.usub 100 101 = 100 - 101 + Int64.modulus
  /\ ageBlocks client (misbehaviourAt (mkHeight 1 101) 70) = 100 - 101.
Proof.
  assert (Hl : Height_wf (LatestHeight client))
    by (unfold Height_wf, Int64.is_uint64, Int64.modulus; cbn; lia).
  assert (Hi : Height_wf (Misbehaviour_GetHeight (misbehaviourAt (mkHeight 1 101) 70)))
    by (unfold Height_wf, Int64.is_uint64, Int64.modulus; cbn; lia).
  split; [exact Hl |]. split; [exact Hi |].
  assert (Hlt : VersionHeight (LatestHeight client)
                < GetEpochHeight
                    (Misbehaviour_GetHeight (misbehaviourAt (mkHeight 1 101) 70)))
    by (cbn; lia).
  destruct (C10_ageBlocks_of_later_height (H0 := collaborators) client
              (misbehaviourAt (mkHeight 1 101) 70) Hl Hi eq_refl Hlt)
    as (Hwrap & Hage & _).
  split; [exact Hwrap | exact Hage].
Defined.

(** * Where the claims as written fail *)

(** C1 as written: the age in time, 49 hours, exceeds the maximum of 48
    hours, and the age in blocks, 5, does not exceed the maximum of
    100000; one of the two conditions is false, and yet the call is
    rejected as stale, before any header is verified. *)
Lemma C1_counterexample :
  Time_Sub (BlockTime lateCtx)
    (Misbehaviour_GetTime (misbehaviourAt (mkHeight 1 95) 70)) > 48 * hour
  /\ ageBlocks client (misbehaviourAt (mkHeight 1 95) 70) <= 100000
  /\ snd (CheckMisbehaviourAndUpdateState client lateCtx tt store
            (TendermintMisbehaviour (misbehaviourAt (mkHeight 1 95) 70)))
     = (None, Some (Wrap ErrInvalidMisbehaviour
                      (MsgAge (49 * hour) 5 (48 * hour) 100000)))
  /\ events (fst (CheckMisbehaviourAndUpdateState client lateCtx tt store
                    (TendermintMisbehaviour (misbehaviourAt (mkHeight 1 95) 70))))
     = [EvGetConsensusState (mkHeight 1 90); EvGetConsensusState (mkHeight 1 90)].
Proof.
  split; [reflexivity |].
  split; [vm_compute; discriminate |].
  split; reflexivity.
Qed.

(** C2 as written: the client is frozen at (1, 97) and the misbehaviour is
    at (1, 95), at or before the frozen height; the check does not fail,
    and it returns a client frozen at (1, 95), earlier than before. *)
Lemma C2_counterexample :
  IsFrozen (frozenAt (mkHeight 1 97)) = true
  /\ Height_LTE (Misbehaviour_GetHeight (misbehaviourAt (mkHeight 1 95) 70))
       (FrozenHeight (frozenAt (mkHeight 1 97))) = true
  /\ snd (CheckMisbehaviourAndUpdateState (frozenAt (mkHeight 1 97)) ctx tt store
            (TendermintMisbehaviour (misbehaviourAt (mkHeight 1 95) 70)))
     = (Some (frozenAt (mkHeight 1 95)), None)
  /\ Height_LT (FrozenHeight (frozenAt (mkHeight 1 95)))
       (FrozenHeight (frozenAt (mkHeight 1 97))) = true.
Proof. repeat split; reflexivity. Qed.

(** C4 as written: same version, latest version height 2^63 + 5 and
    misbehaviour at version height 5; the difference is 2^63, the age in
    blocks that the function computes is -2^63. *)
Lemma C4_counterexample :
  GetEpochNumber (Misbehaviour_GetHeight (misbehaviourAt (mkHeight 1 5) 70))
    = VersionNumber (LatestHeight (clientAt (mkHeight 1 (2 ^ 63 + 5))))
  /\ Height_wf (LatestHeight (clientAt (mkHeight 1 (2 ^ 63 + 5))))
  /\ VersionHeight (LatestHeight (clientAt (mkHeight 1 (2 ^ 63 + 5))))
       - GetEpochHeight (Misbehaviour_GetHeight (misbehaviourAt (mkHeight 1 5) 70))
     = 2 ^ 63
  /\ ageBlocks (clientAt (mkHeight 1 (2 ^ 63 + 5)))
       (misbehaviourAt (mkHeight 1 5) 70) = - 2 ^ 63.
Proof.
  split; [reflexivity |].
  split; [unfold Height_wf, Int64.is_uint64, Int64.modulus; cbn; lia |].
  split; reflexivity.
Qed.

(** C10 as written: same version, latest version height 100 and
    misbehaviour at version height 101; the age in blocks is -1, the
    arithmetic difference itself and no large positive number, and the
    call is not stale under a maximum of 100000 blocks: it freezes the
    client. *)
Lemma C10_counterexample :
  GetEpochNumber (Misbehaviour_GetHeight (misbehaviourAt (mkHeight 1 101) 70))
    = VersionNumber (LatestHeight client)
  /\ VersionHeight (LatestHeight client)
     < GetEpochHeight (Misbehaviour_GetHeight (misbehaviourAt (mkHeight 1 101) 70))
  /\ ageBlocks client (misbehaviourAt (mkHeight 1 101) 70)
     = VersionHeight (LatestHeight client)
       - GetEpochHeight (Misbehaviour_GetHeight (misbehaviourAt (mkHeight 1 101) 70))
  /\ ageBlocks client (misbehaviourAt (mkHeight 1 101) 70) = -1
  /\ snd (CheckMisbehaviourAndUpdateState client ctx tt store
            (TendermintMisbehaviour (misbehaviourAt (mkHeight 1 101) 70)))
     = (Some (frozenAt (mkHeight 1 101)), None).
Proof. repeat split; reflexivity. Qed.

(** * Further properties of the two functions *)

Lemma Time_Sub_mono (t t' u : Time) :
  t <= t' -> Time_Sub t u <= Time_Sub t' u.
Proof.
  unfold Time_Sub, minDuration, maxDuration, Int64.min_signed, Int64.max_signed.
  intros Hle. cbv zeta.
  destruct (t - u <? - 2 ^ 63) eqn:E1; destruct (t' - u <? - 2 ^ 63) eqn:E2;
    destruct (2 ^ 63 - 1 <? t - u) eqn:E3; destruct (2 ^ 63 - 1 <? t' - u) eqn:E4;
    try apply Z.ltb_lt in E1; try apply Z.ltb_ge in E1;
    try apply Z.ltb_lt in E2; try apply Z.ltb_ge in E2;
    try apply Z.ltb_lt in E3; try apply Z.ltb_ge in E3;
    try apply Z.ltb_lt in E4; try apply Z.ltb_ge in E4; lia.
Qed.

Section AcceptanceLemmas.
Context `{Collaborators}.

Lemma geb_false_lt (a b : Z) : (a >=? b) = false <-> a < b.
Proof.
  split; intros Hx.
  - destruct (a >=? b) eqn:E; [discriminate |].
    destruct (Z_lt_le_dec a b) as [Hlt | Hle]; [exact Hlt |].
    assert (Ht : (a >=? b) = true) by (apply Z.geb_le; lia). congruence.
  - destruct (a >=? b) eqn:E; [apply Z.geb_le in E; lia | reflexivity].
Qed.

Lemma accepted_run
    (f : Frame) (consState : ConsensusState) (header : Header) (now : Time) :
  headerAccepted (cs_local f) consState header now ->
  snd (run_checkMisbehaviourHeader f consState header now) = None.
Proof.
  intros (valset & commit & Hv & Hc & Ht & Hfresh & Hok).
  rewrite checkMisbehaviourHeader_unfold. cbv zeta. rewrite Hv, Hc, Ht.
  apply geb_false_lt in Hfresh. rewrite Hfresh. cbn [snd]. rewrite Hok.
  reflexivity.
Qed.

Lemma run_accepted
    (f : Frame) (consState : ConsensusState) (header : Header) (now : Time) :
  snd (run_checkMisbehaviourHeader f consState header now) = None ->
  headerAccepted (cs_local f) consState header now.
Proof.
  rewrite checkMisbehaviourHeader_unfold. cbv zeta. unfold headerAccepted.
  destruct (ValidatorSetFromProto (TrustedValidators header)) as [e | valset];
    [discriminate |].
  destruct (CommitFromProto (Commit header)) as [e | commit]; [discriminate |].
  destruct (checkTrustedHeader header consState) as [e |]; [discriminate |].
  destruct (Time_Sub now (Timestamp consState) >=? UnbondingPeriod (cs_local f))
    eqn:Hexp; [discriminate |].
  cbn [snd].
  destruct (VerifyCommitLightTrusting valset (verifiedChainID (cs_local f) header)
              commit (ToTendermint (TrustLevel (cs_local f)))) eqn:Hok;
    [discriminate |].
  intros _. exists valset, commit. apply geb_false_lt in Hexp.
  repeat split; assumption.
Qed.

(** On acceptance the log does not depend on the time. *)
Lemma accepted_run_any_time
    (f : Frame) (consState : ConsensusState) (header : Header) (now now' : Time) :
  headerAccepted (cs_local f) consState header now ->
  headerAccepted (cs_local f) consState header now' ->
  run_checkMisbehaviourHeader f consState header now
    = run_checkMisbehaviourHeader f consState header now'.
Proof.
  intros (valset & commit & Hv & Hc & Ht & Hfresh & Hok)
         (valset' & commit' & Hv' & Hc' & _ & Hfresh' & _).
  rewrite !checkMisbehaviourHeader_unfold. cbv zeta. rewrite Hv, Hc, Ht.
  apply geb_false_lt in Hfresh, Hfresh'. rewrite Hfresh, Hfresh'. reflexivity.
Qed.

Lemma headerAccepted_earlier
    (cs : ClientState) (consState : ConsensusState) (header : Header)
    (now now' : Time) :
  now <= now' ->
  headerAccepted cs consState header now' ->
  headerAccepted cs consState header now.
Proof.
  intros Hle (valset & commit & Hv & Hc & Ht & Hfresh & Hok).
  exists valset, commit. repeat split; try assumption.
  pose proof (Time_Sub_mono now now' (Timestamp consState) Hle). lia.
Qed.

Lemma verifyBoth_accepts
    (f : Frame) (ctx : SdkContext) (m : Misbehaviour)
    (consState1 consState2 : ConsensusState) :
  snd (snd (verifyBoth f ctx m consState1 consState2)) = None <->
  headerAccepted (cs_local f) consState1 (Header1 m) (BlockTime ctx)
  /\ headerAccepted (cs_local f) consState2 (Header2 m) (BlockTime ctx).
Proof.
  unfold verifyBoth. cbv zeta.
  destruct (checkMisbehaviourHeader_frame f consState1 (Header1 m) (BlockTime ctx))
    as [Hcs1 _].
  pose proof (run_accepted f consState1 (Header1 m) (BlockTime ctx)) as Hr1.
  pose proof (accepted_run f consState1 (Header1 m) (BlockTime ctx)) as Ha1.
  set (r1 := run_checkMisbehaviourHeader f consState1 (Header1 m) (BlockTime ctx)) in *.
  pose proof (run_accepted (fst r1) consState2 (Header2 m) (BlockTime ctx)) as Hr2.
  pose proof (accepted_run (fst r1) consState2 (Header2 m) (BlockTime ctx)) as Ha2.
  rewrite Hcs1 in Hr2, Ha2.
  destruct (snd r1) as [e1 |].
  { cbn [snd]. split; [discriminate |]. intros [H1 _].
    specialize (Ha1 H1). discriminate Ha1. }
  set (r2 := run_checkMisbehaviourHeader (fst r1) consState2 (Header2 m) (BlockTime ctx)) in *.
  destruct (snd r2) as [e2 |]; cbn [snd].
  - split; [discriminate |]. intros [_ H2]. specialize (Ha2 H2). discriminate Ha2.
  - split; [| reflexivity]. intros _. split; [apply Hr1 | apply Hr2]; reflexivity.
Qed.

Lemma accepted_no_error
    (cs : ClientState) (ctx : SdkContext) (cdc : BinaryMarshaler)
    (clientStore : KVStore) (m : Misbehaviour) :
  accepted cs ctx cdc clientStore m ->
  snd (CheckMisbehaviourAndUpdateState cs ctx cdc clientStore
         (TendermintMisbehaviour m))
    = (Some (set_FrozenHeight (Misbehaviour_GetHeight m) cs), None).
Proof.
  intros (Hguard & c1 & c2 & H1 & H2 & Hold & Ha1 & Ha2).
  pose proof (CheckMisbehaviourAndUpdateState_outcome cs ctx cdc clientStore
                (TendermintMisbehaviour m)) as Hout.
  assert (Hnone : snd (snd (CheckMisbehaviourAndUpdateState cs ctx cdc clientStore
                              (TendermintMisbehaviour m))) = None).
  { rewrite CheckMisbehaviourAndUpdateState_unfold. cbv zeta.
    rewrite Hguard, H1, H2, Hold. apply verifyBoth_accepts. split; assumption. }
  destruct Hout as [f e Hcs | f m' Hm Hg Hcs]; cbn [snd] in *.
  - discriminate Hnone.
  - injection Hm as Hm. subst m'. reflexivity.
Qed.

Lemma no_error_accepted
    (cs : ClientState) (ctx : SdkContext) (cdc : BinaryMarshaler)
    (clientStore : KVStore) (m : Misbehaviour) :
  snd (snd (CheckMisbehaviourAndUpdateState cs ctx cdc clientStore
              (TendermintMisbehaviour m))) = None ->
  accepted cs ctx cdc clientStore m.
Proof.
  rewrite CheckMisbehaviourAndUpdateState_unfold. cbv zeta. unfold accepted.
  destruct (IsFrozen cs && Height_LTE (FrozenHeight cs) (Misbehaviour_GetHeight m));
    [discriminate |].
  destruct (GetConsensusState clientStore cdc (TrustedHeight (Header1 m)))
    as [e1 | c1]; [discriminate |].
  destruct (GetConsensusState clientStore cdc (TrustedHeight (Header2 m)))
    as [e2 | c2]; [discriminate |].
  destruct (tooOld (ConsensusParams ctx)
              (Time_Sub (BlockTime ctx) (Misbehaviour_GetTime m)) (ageBlocks cs m));
    [discriminate |].
  intros Hnone. apply verifyBoth_accepts in Hnone. cbn [cs_local] in Hnone.
  split; [reflexivity |]. exists c1, c2. repeat split; tauto.
Qed.

Lemma tooOld_mono (params : option AbciConsensusParams) (d d' blocks : Z) :
  d <= d' -> tooOld params d blocks = true -> tooOld params d' blocks = true.
Proof.
  unfold tooOld. intros Hle.
  destruct params as [[[evidence |]] |]; cbn [Evidence]; try discriminate.
  rewrite !orb_true_iff, !Z.gtb_gt. lia.
Qed.

End AcceptanceLemmas.

Section HeaderCheckLemmas.
Context `{Collaborators}.

(** The verdict of the per-header check depends on the frame only through
    the client state. *)
Lemma run_checkMisbehaviourHeader_verdict
    (f f' : Frame) (consState : ConsensusState) (header : Header) (now : Time) :
  cs_local f = cs_local f' ->
  snd (run_checkMisbehaviourHeader f consState header now)
    = snd (run_checkMisbehaviourHeader f' consState header now).
Proof.
  intros Hcs. rewrite !checkMisbehaviourHeader_unfold. cbv zeta. rewrite Hcs.
  destruct (ValidatorSetFromProto (TrustedValidators header)); [reflexivity |].
  destruct (CommitFromProto (Commit header)); [reflexivity |].
  destruct (checkTrustedHeader header consState); [reflexivity |].
  destruct (Time_Sub now (Timestamp consState) >=? UnbondingPeriod (cs_local f'));
    reflexivity.
Qed.

End HeaderCheckLemmas.

(** * Further theorems *)

Section Extras.
Context `{Collaborators}.

(** X1: [checkMisbehaviourHeader] returns a nil error exactly when the
    trusted validator set and the commit decode, the trusted fields match,
    the trusted consensus state is younger than the unbonding period, and
    the commit verifies, at the client's trust level, against the client's
    chain identifier (with the header's version number when the identifier
    is in version format). *)
Theorem X1_header_check_accepts_iff
    (f : Frame) (consState : ConsensusState) (header : Header) (now : Time) :
  snd (run_checkMisbehaviourHeader f consState header now) = None <->
  headerAccepted (cs_local f) consState header now.
Proof. split; [apply run_accepted | apply accepted_run]. Qed.

(** X2: [CheckMisbehaviourAndUpdateState] returns a nil error exactly when
    the misbehaviour is a Tendermint misbehaviour, the client is not frozen
    at or before its height, both trusted consensus states are in the
    store, the misbehaviour is not too old, and each header passes the
    per-header check against its own trusted consensus state; it then
    returns the client frozen at the height of the misbehaviour. *)
Theorem X2_check_accepts_iff
    (cs : ClientState) (ctx : SdkContext) (cdc : BinaryMarshaler)
    (clientStore : KVStore) (misbehaviour : ExportedMisbehaviour) :
  (snd (snd (CheckMisbehaviourAndUpdateState cs ctx cdc clientStore misbehaviour))
     = None <->
   exists m, misbehaviour = TendermintMisbehaviour m
             /\ accepted cs ctx cdc clientStore m)
  /\ (forall m, misbehaviour = TendermintMisbehaviour m ->
        accepted cs ctx cdc clientStore m ->
        snd (CheckMisbehaviourAndUpdateState cs ctx cdc clientStore misbehaviour)
          = (Some (set_FrozenHeight (Misbehaviour_GetHeight m) cs), None)).
Proof.
  split.
  - split.
    + destruct misbehaviour as [m | other]; [| discriminate].
      intros Hnone. exists m. split; [reflexivity |].
      apply no_error_accepted. exact Hnone.
    + intros (m & Hm & Hacc). subst misbehaviour.
      rewrite (accepted_no_error _ _ _ _ _ Hacc). reflexivity.
  - intros m Hm Hacc. subst misbehaviour. apply accepted_no_error. exact Hacc.
Qed.

(** X3: [checkMisbehaviourHeader] never writes to the client state behind
    its pointer argument, keeps the log it finds, and reads no consensus
    state from the store. *)
Theorem X3_header_check_frame
    (f : Frame) (consState : ConsensusState) (header : Header) (now : Time) :
  cs_local (fst (run_checkMisbehaviourHeader f consState header now)) = cs_local f
  /\ exists added,
       events (fst (run_checkMisbehaviourHeader f consState header now))
         = events f ++ EvCheckMisbehaviourHeader consState header :: added
       /\ existsb isStoreRead added = false.
Proof.
  rewrite checkMisbehaviourHeader_unfold. cbv zeta.
  destruct (ValidatorSetFromProto (TrustedValidators header));
    [cbn; split; [reflexivity | eexists; split; reflexivity] |].
  destruct (CommitFromProto (Commit header));
    [cbn; split; [reflexivity
                 | rewrite <- app_assoc; eexists; split; reflexivity] |].
  destruct (checkTrustedHeader header consState);
    [cbn; split; [reflexivity
                 | rewrite <- app_assoc; eexists; split; reflexivity] |].
  destruct (Time_Sub now (Timestamp consState) >=? UnbondingPeriod (cs_local f));
    [cbn; split; [reflexivity
                 | rewrite <- app_assoc; eexists; split; reflexivity] |].
  unfold substitutionEvents.
  destruct (IsEpochFormat (GetChainID (cs_local f)));
    cbn; (split; [reflexivity
                 | rewrite <- !app_assoc; eexists; split; reflexivity]).
Qed.

(** X4: the call returns the invalid-client-type error exactly when the
    misbehaviour is not a Tendermint misbehaviour, and then nothing is
    read or verified, also on a frozen client. *)
Theorem X4_invalid_client_type_iff
    (cs : ClientState) (ctx : SdkContext) (cdc : BinaryMarshaler)
    (clientStore : KVStore) (misbehaviour : ExportedMisbehaviour) :
  (snd (CheckMisbehaviourAndUpdateState cs ctx cdc clientStore misbehaviour)
     = (None, Some (Wrap ErrInvalidClientType MsgExpectedType)) <->
   exists clientType, misbehaviour = ForeignMisbehaviour clientType)
  /\ forall clientType,
       CheckMisbehaviourAndUpdateState cs ctx cdc clientStore
         (ForeignMisbehaviour clientType)
       = (mkFrame _ cs [], (None, Some (Wrap ErrInvalidClientType MsgExpectedType))).
Proof.
  split; [| reflexivity]. split.
  - destruct misbehaviour as [m | other]; [| intros _; exists other; reflexivity].
    rewrite CheckMisbehaviourAndUpdateState_unfold. cbv zeta.
    destruct (IsFrozen cs && Height_LTE (FrozenHeight cs) (Misbehaviour_GetHeight m));
      [discriminate |].
    destruct (GetConsensusState clientStore cdc (TrustedHeight (Header1 m)))
      as [e1 | c1]; [discriminate |].
    destruct (GetConsensusState clientStore cdc (TrustedHeight (Header2 m)))
      as [e2 | c2]; [discriminate |].
    destruct (tooOld _ _ _); [discriminate |].
    match goal with |- context [verifyBoth ?f _ _ _ _] => set (f0 := f) end.
    intros Hr.
    destruct (verifyBoth_outcome f0 ctx m c1 c2)
      as [(err & which & Herr & _) | [Hok _]];
      cbv zeta in *; rewrite Hr in *; discriminate.
  - intros [clientType Hm]. subst misbehaviour. reflexivity.
Qed.

(** X5: the call returns the already-frozen error exactly when the
    misbehaviour is a Tendermint misbehaviour, the client is frozen, and
    its frozen height is at or before the height of the misbehaviour. *)
Theorem X5_already_frozen_iff
    (cs : ClientState) (ctx : SdkContext) (cdc : BinaryMarshaler)
    (clientStore : KVStore) (misbehaviour : ExportedMisbehaviour) :
  AlreadyFrozen
    (snd (CheckMisbehaviourAndUpdateState cs ctx cdc clientStore misbehaviour))
  <->
  exists m, misbehaviour = TendermintMisbehaviour m
            /\ IsFrozen cs = true
            /\ Height_LTE (FrozenHeight cs) (Misbehaviour_GetHeight m) = true.
Proof.
  split.
  - intros (frozen & h & Hr).
    destruct misbehaviour as [m | other]; [| discriminate Hr].
    exists m. split; [reflexivity |].
    rewrite CheckMisbehaviourAndUpdateState_unfold in Hr. cbv zeta in Hr.
    destruct (IsFrozen cs && Height_LTE (FrozenHeight cs) (Misbehaviour_GetHeight m))
      eqn:Hguard; [apply andb_true_iff in Hguard; exact Hguard |].
    exfalso.
    destruct (GetConsensusState clientStore cdc (TrustedHeight (Header1 m)))
      as [e1 | c1]; [discriminate |].
    destruct (GetConsensusState clientStore cdc (TrustedHeight (Header2 m)))
      as [e2 | c2]; [discriminate |].
    destruct (tooOld _ _ _); [discriminate |].
    match type of Hr with context [verifyBoth ?f _ _ _ _] => set (f0 := f) in * end.
    destruct (verifyBoth_outcome f0 ctx m c1 c2)
      as [(err & which & Herr & _) | [Hok _]];
      cbv zeta in *; rewrite Hr in *; discriminate.
  - intros (m & Hm & Hfrozen & Hlte). subst misbehaviour.
    rewrite CheckMisbehaviourAndUpdateState_unfold. cbv zeta.
    rewrite Hfrozen, Hlte. eexists _, _. reflexivity.
Qed.

(** X6: when the store has no trusted consensus state for the first
    header, the call returns the store's error wrapped for Header1 after
    that single read; when it has one for the first header and none for the
    second, the call returns the store's error wrapped for Header2 after
    the two reads.  Either way no header is verified, and neither the age
    of the misbehaviour nor the block time matters. *)
Theorem X6_missing_trusted_consensus_state
    (cs : ClientState) (ctx : SdkContext) (cdc : BinaryMarshaler)
    (clientStore : KVStore) (m : Misbehaviour) (err : Error) :
  IsFrozen cs && Height_LTE (FrozenHeight cs) (Misbehaviour_GetHeight m) = false ->
  let h1 := TrustedHeight (Header1 m) in
  let h2 := TrustedHeight (Header2 m) in
  let r := CheckMisbehaviourAndUpdateState cs ctx cdc clientStore
             (TendermintMisbehaviour m) in
  (GetConsensusState clientStore cdc h1 = inl err ->
     r = (mkFrame _ cs [EvGetConsensusState h1],
          (None, Some (Wrap err (MsgNoTrustedConsensusState Header1Id))))
     /\ Cause (Wrap err (MsgNoTrustedConsensusState Header1Id)) = Cause err)
  /\ (forall consState1,
        GetConsensusState clientStore cdc h1 = inr consState1 ->
        GetConsensusState clientStore cdc h2 = inl err ->
        r = (mkFrame _ cs [EvGetConsensusState h1; EvGetConsensusState h2],
             (None, Some (Wrap err (MsgNoTrustedConsensusState Header2Id))))
        /\ Cause (Wrap err (MsgNoTrustedConsensusState Header2Id)) = Cause err).
Proof.
  intros Hguard h1 h2 r. subst r h1 h2.
  rewrite CheckMisbehaviourAndUpdateState_unfold. cbv zeta. rewrite Hguard.
  split.
  - intros H1. rewrite H1. split; reflexivity.
  - intros consState1 H1 H2. rewrite H1, H2. split; reflexivity.
Qed.

(** X7: once the staleness test is passed, a failure of the first header
    is returned wrapped for Header1 and the second header is not looked at:
    the call ends in the frame the first check left.  When the first header
    passes and the second fails, the failure is returned wrapped for
    Header2; the verdict on the second header is the one it gets on its
    own, whatever the first check logged. *)
Theorem X7_first_failing_header_reported
    (cs : ClientState) (ctx : SdkContext) (cdc : BinaryMarshaler)
    (clientStore : KVStore) (m : Misbehaviour)
    (consState1 consState2 : ConsensusState) (err : Error) :
  IsFrozen cs && Height_LTE (FrozenHeight cs) (Misbehaviour_GetHeight m) = false ->
  GetConsensusState clientStore cdc (TrustedHeight (Header1 m)) = inr consState1 ->
  GetConsensusState clientStore cdc (TrustedHeight (Header2 m)) = inr consState2 ->
  tooOld (ConsensusParams ctx)
    (Time_Sub (BlockTime ctx) (Misbehaviour_GetTime m)) (ageBlocks cs m) = false ->
  let f := mkFrame _ cs [EvGetConsensusState (TrustedHeight (Header1 m));
                         EvGetConsensusState (TrustedHeight (Header2 m))] in
  let r1 := run_checkMisbehaviourHeader f consState1 (Header1 m) (BlockTime ctx) in
  let r2 := run_checkMisbehaviourHeader f consState2 (Header2 m) (BlockTime ctx) in
  let r := CheckMisbehaviourAndUpdateState cs ctx cdc clientStore
             (TendermintMisbehaviour m) in
  (snd r1 = Some err ->
     r = (fst r1, (None, Some (Wrap err (MsgVerifyingHeaderFailed Header1Id)))))
  /\ (snd r1 = None -> snd r2 = Some err ->
      snd r = (None, Some (Wrap err (MsgVerifyingHeaderFailed Header2Id)))
      /\ cs_local (fst r) = cs).
Proof.
  intros Hguard H1 H2 Hold f r1 r2 r. subst r.
  rewrite CheckMisbehaviourAndUpdateState_unfold. cbv zeta.
  rewrite Hguard, H1, H2, Hold. fold f. unfold verifyBoth. cbv zeta. fold r1.
  destruct (checkMisbehaviourHeader_frame f consState1 (Header1 m) (BlockTime ctx))
    as [Hcs1 _]. fold r1 in Hcs1.
  split.
  - intros Hr1. rewrite Hr1. reflexivity.
  - intros Hr1 Hr2. rewrite Hr1.
    assert (Hsame : snd (run_checkMisbehaviourHeader (fst r1) consState2
                           (Header2 m) (BlockTime ctx)) = Some err).
    { rewrite (run_checkMisbehaviourHeader_verdict (fst r1) f); assumption. }
    destruct (checkMisbehaviourHeader_frame (fst r1) consState2 (Header2 m)
                (BlockTime ctx)) as [Hcs2 _].
    rewrite Hsame. cbn [fst snd]. split; [reflexivity |].
    rewrite Hcs2, Hcs1. reflexivity.
Qed.

(** X8: every error that [CheckMisbehaviourAndUpdateState] returns is a
    wrapped error: the call never hands a collaborator's error, or a
    registered error, to its caller without a message of its own. *)
Theorem X8_errors_are_wrapped
    (cs : ClientState) (ctx : SdkContext) (cdc : BinaryMarshaler)
    (clientStore : KVStore) (misbehaviour : ExportedMisbehaviour) (err : Error) :
  snd (snd (CheckMisbehaviourAndUpdateState cs ctx cdc clientStore misbehaviour))
    = Some err ->
  isWrapped err = true.
Proof.
  destruct misbehaviour as [m | other];
    [| intros Herr; injection Herr as <-; reflexivity].
  rewrite CheckMisbehaviourAndUpdateState_unfold. cbv zeta.
  destruct (IsFrozen cs && Height_LTE (FrozenHeight cs) (Misbehaviour_GetHeight m));
    [intros Herr; injection Herr as <-; reflexivity |].
  destruct (GetConsensusState clientStore cdc (TrustedHeight (Header1 m)))
    as [e1 | c1]; [intros Herr; injection Herr as <-; reflexivity |].
  destruct (GetConsensusState clientStore cdc (TrustedHeight (Header2 m)))
    as [e2 | c2]; [intros Herr; injection Herr as <-; reflexivity |].
  destruct (tooOld _ _ _); [intros Herr; injection Herr as <-; reflexivity |].
  match goal with |- context [verifyBoth ?f _ _ _ _] => set (f0 := f) end.
  intros Herr.
  destruct (verifyBoth_outcome f0 ctx m c1 c2)
    as [(e & which & He & _) | [Hok _]]; cbv zeta in *.
  - rewrite He in Herr. injection Herr as <-. reflexivity.
  - rewrite Hok in Herr. discriminate Herr.
Qed.

(** X9: when the client's chain identifier is not in version format, the
    per-header check calls no substitution and verifies the commit against
    the client's chain identifier as it is. *)
Theorem X9_plain_chain_id_not_substituted
    (f : Frame) (consState : ConsensusState) (header : Header) (now : Time)
    (valset : TmValidatorSet) (commit : TmCommit) :
  ValidatorSetFromProto (TrustedValidators header) = inr valset ->
  CommitFromProto (Commit header) = inr commit ->
  checkTrustedHeader header consState = None ->
  Time_Sub now (Timestamp consState) < UnbondingPeriod (cs_local f) ->
  IsEpochFormat (GetChainID (cs_local f)) = false ->
  let r := run_checkMisbehaviourHeader f consState header now in
  snd r = match VerifyCommitLightTrusting valset (GetChainID (cs_local f)) commit
                  (ToTendermint (TrustLevel (cs_local f))) with
          | Some err => Some (Wrap ErrInvalidMisbehaviour (MsgTooMuchChange err))
          | None => None
          end
  /\ events (fst r)
     = events f ++ [EvCheckMisbehaviourHeader consState header;
                    EvValidatorSetFromProto; EvCommitFromProto;
                    EvCheckTrustedHeader;
                    EvVerifyCommitLightTrusting (GetChainID (cs_local f))].
Proof.
  intros Hv Hc Ht Hfresh Hfmt r. subst r.
  rewrite checkMisbehaviourHeader_unfold. cbv zeta. rewrite Hv, Hc, Ht.
  apply geb_false_lt in Hfresh. rewrite Hfresh.
  unfold verifiedChainID, substitutionEvents. rewrite Hfmt.
  cbn [fst snd events]. rewrite <- !app_assoc. cbn [app].
  split; reflexivity.
Qed.

(** X10: after a call that froze the client at a misbehaviour of non-zero
    height, a call on the returned client state with that misbehaviour
    again, or with any misbehaviour at that height or above, fails with the
    already-frozen error before anything is read. *)
Theorem X10_resubmission_rejected
    (cs cs' : ClientState) (ctx ctx' : SdkContext) (cdc cdc' : BinaryMarshaler)
    (clientStore clientStore' : KVStore) (m m' : Misbehaviour) :
  snd (CheckMisbehaviourAndUpdateState cs ctx cdc clientStore
         (TendermintMisbehaviour m)) = (Some cs', None) ->
  Height_IsZero (Misbehaviour_GetHeight m) = false ->
  Height_LTE (Misbehaviour_GetHeight m) (Misbehaviour_GetHeight m') = true ->
  CheckMisbehaviourAndUpdateState cs' ctx' cdc' clientStore'
    (TendermintMisbehaviour m')
  = (mkFrame _ cs' [],
     (None, Some (Wrap ErrInvalidMisbehaviour
                    (MsgAlreadyFrozen (Misbehaviour_GetHeight m)
                       (Misbehaviour_GetHeight m'))))).
Proof.
  intros Hok Hnz Hlte.
  destruct (CheckMisbehaviourAndUpdateState_outcome cs ctx cdc clientStore
              (TendermintMisbehaviour m)) as [f e Hcs | f m0 Hm Hguard Hcs];
    cbn [snd] in Hok; [discriminate Hok |].
  injection Hm as Hm. subst m0. injection Hok as Hcs'. subst cs'.
  rewrite CheckMisbehaviourAndUpdateState_unfold. cbv zeta.
  unfold IsFrozen. rewrite set_FrozenHeight_FrozenHeight, Hnz, Hlte.
  reflexivity.
Qed.

(** X11: with the same consensus parameters, a misbehaviour that the call
    accepts at some block time is accepted at every earlier block time,
    with the same result: neither the staleness test nor the test of the
    unbonding period can fail earlier and pass later. *)
Theorem X11_accepted_at_earlier_block_time
    (cs : ClientState) (ctx ctx' : SdkContext) (cdc : BinaryMarshaler)
    (clientStore : KVStore) (misbehaviour : ExportedMisbehaviour) :
  BlockTime ctx <= BlockTime ctx' ->
  ConsensusParams ctx = ConsensusParams ctx' ->
  snd (snd (CheckMisbehaviourAndUpdateState cs ctx' cdc clientStore misbehaviour))
    = None ->
  snd (CheckMisbehaviourAndUpdateState cs ctx cdc clientStore misbehaviour)
    = snd (CheckMisbehaviourAndUpdateState cs ctx' cdc clientStore misbehaviour).
Proof.
  intros Hle Hparams Hnone.
  destruct misbehaviour as [m | other]; [| discriminate Hnone].
  apply no_error_accepted in Hnone.
  assert (Hacc : accepted cs ctx cdc clientStore m).
  { destruct Hnone as (Hguard & c1 & c2 & H1 & H2 & Hold & Ha1 & Ha2).
    split; [exact Hguard |]. exists c1, c2.
    split; [exact H1 |]. split; [exact H2 |].
    split; [| split; eapply headerAccepted_earlier; eassumption].
    rewrite Hparams.
    destruct (tooOld (ConsensusParams ctx')
                (Time_Sub (BlockTime ctx) (Misbehaviour_GetTime m)) (ageBlocks cs m))
      eqn:E; [| reflexivity].
    rewrite (tooOld_mono _ _ _ _
               (Time_Sub_mono _ _ (Misbehaviour_GetTime m) Hle) E) in Hold.
    discriminate Hold. }
  rewrite (accepted_no_error _ _ _ _ _ Hacc), (accepted_no_error _ _ _ _ _ Hnone).
  reflexivity.
Qed.

(** X12: a per-header check that fails with the unbonding-period error at
    some time fails with it at every later time. *)
Theorem X12_expired_stays_expired
    (f : Frame) (consState : ConsensusState) (header : Header) (now now' : Time)
    (elapsed : Duration) :
  now <= now' ->
  snd (run_checkMisbehaviourHeader f consState header now)
    = Some (Wrap ErrUnbondingPeriodExpired
              (MsgUnbondingPeriod elapsed (UnbondingPeriod (cs_local f)))) ->
  exists elapsed',
    snd (run_checkMisbehaviourHeader f consState header now')
      = Some (Wrap ErrUnbondingPeriodExpired
                (MsgUnbondingPeriod elapsed' (UnbondingPeriod (cs_local f)))).
Proof.
  intros Hle. rewrite !checkMisbehaviourHeader_unfold. cbv zeta.
  destruct (ValidatorSetFromProto (TrustedValidators header)) as [e | valset];
    [discriminate |].
  destruct (CommitFromProto (Commit header)) as [e | commit]; [discriminate |].
  destruct (checkTrustedHeader header consState) as [e |];
    [intros He; exists elapsed; exact He |].
  destruct (Time_Sub now (Timestamp consState) >=? UnbondingPeriod (cs_local f))
    eqn:Hexp.
  - intros _. apply Z.geb_le in Hexp.
    pose proof (Time_Sub_mono now now' (Timestamp consState) Hle) as Hmono.
    assert (Hexp' : (Time_Sub now' (Timestamp consState)
                       >=? UnbondingPeriod (cs_local f)) = true)
      by (apply Z.geb_le; lia).
    rewrite Hexp'. eexists. reflexivity.
  - cbn [snd].
    destruct (VerifyCommitLightTrusting valset _ commit _); discriminate.
Qed.

(** X13: with the same consensus parameters, a misbehaviour that the call
    rejects as stale at some block time is rejected as stale at every later
    block time. *)
Theorem X13_stale_stays_stale
    (cs : ClientState) (ctx ctx' : SdkContext) (cdc : BinaryMarshaler)
    (clientStore : KVStore) (misbehaviour : ExportedMisbehaviour) :
  BlockTime ctx <= BlockTime ctx' ->
  ConsensusParams ctx = ConsensusParams ctx' ->
  StaleMisbehaviour
    (snd (CheckMisbehaviourAndUpdateState cs ctx cdc clientStore misbehaviour)) ->
  StaleMisbehaviour
    (snd (CheckMisbehaviourAndUpdateState cs ctx' cdc clientStore misbehaviour)).
Proof.
  intros Hle Hparams Hstale.
  destruct misbehaviour as [m | other].
  2: { destruct Hstale as (a & b & c & d & Hr). discriminate Hr. }
  rewrite CheckMisbehaviourAndUpdateState_unfold in *. cbv zeta in *.
  destruct (IsFrozen cs && Height_LTE (FrozenHeight cs) (Misbehaviour_GetHeight m)).
  { destruct Hstale as (a & b & c & d & Hr). discriminate Hr. }
  destruct (GetConsensusState clientStore cdc (TrustedHeight (Header1 m)))
    as [e1 | c1].
  { destruct Hstale as (a & b & c & d & Hr). discriminate Hr. }
  destruct (GetConsensusState clientStore cdc (TrustedHeight (Header2 m)))
    as [e2 | c2].
  { destruct Hstale as (a & b & c & d & Hr). discriminate Hr. }
  destruct (tooOld (ConsensusParams ctx)
              (Time_Sub (BlockTime ctx) (Misbehaviour_GetTime m)) (ageBlocks cs m))
    eqn:Hold.
  - rewrite Hparams in Hold.
    rewrite (tooOld_mono _ _ _ _
               (Time_Sub_mono _ _ (Misbehaviour_GetTime m) Hle) Hold).
    eexists _, _, _, _. reflexivity.
  - exfalso. exact (verifyBoth_not_stale _ _ _ _ _ Hstale).
Qed.

(** X14: acceptance does not depend on the order of the two headers: when
    the height and the time of the misbehaviour are the same with the
    headers exchanged, the call accepts the one exactly when it accepts the
    other, and returns the same client state. *)
Theorem X14_header_order_irrelevant
    (cs : ClientState) (ctx : SdkContext) (cdc : BinaryMarshaler)
    (clientStore : KVStore) (m : Misbehaviour) :
  Misbehaviour_GetHeight (swapHeaders m) = Misbehaviour_GetHeight m ->
  Misbehaviour_GetTime (swapHeaders m) = Misbehaviour_GetTime m ->
  (snd (snd (CheckMisbehaviourAndUpdateState cs ctx cdc clientStore
               (TendermintMisbehaviour (swapHeaders m)))) = None
   <-> snd (snd (CheckMisbehaviourAndUpdateState cs ctx cdc clientStore
                   (TendermintMisbehaviour m))) = None)
  /\ (snd (snd (CheckMisbehaviourAndUpdateState cs ctx cdc clientStore
                  (TendermintMisbehaviour m))) = None ->
      snd (CheckMisbehaviourAndUpdateState cs ctx cdc clientStore
             (TendermintMisbehaviour (swapHeaders m)))
      = snd (CheckMisbehaviourAndUpdateState cs ctx cdc clientStore
               (TendermintMisbehaviour m))).
Proof.
  intros Hh Ht.
  assert (Hswap : forall a b : Misbehaviour,
             Misbehaviour_GetHeight a = Misbehaviour_GetHeight b ->
             Misbehaviour_GetTime a = Misbehaviour_GetTime b ->
             Header1 a = Header2 b -> Header2 a = Header1 b ->
             accepted cs ctx cdc clientStore b -> accepted cs ctx cdc clientStore a).
  { intros a b Hab Htab H12 H21 (Hguard & c1 & c2 & H1 & H2 & Hold & Ha1 & Ha2).
    unfold accepted, ageBlocks in *. rewrite Hab, Htab, H12, H21.
    split; [exact Hguard |]. exists c2, c1. repeat split; assumption. }
  assert (Hto : accepted cs ctx cdc clientStore m ->
                accepted cs ctx cdc clientStore (swapHeaders m))
    by (apply Hswap; [exact Hh | exact Ht | reflexivity | reflexivity]).
  assert (Hfrom : accepted cs ctx cdc clientStore (swapHeaders m) ->
                  accepted cs ctx cdc clientStore m)
    by (apply Hswap; [symmetry; exact Hh | symmetry; exact Ht
                     | reflexivity | reflexivity]).
  split.
  - split; intros Hnone; apply no_error_accepted in Hnone.
    + rewrite (accepted_no_error _ _ _ _ _ (Hfrom Hnone)). reflexivity.
    + rewrite (accepted_no_error _ _ _ _ _ (Hto Hnone)). reflexivity.
  - intros Hnone. apply no_error_accepted in Hnone.
    rewrite (accepted_no_error _ _ _ _ _ Hnone),
      (accepted_no_error _ _ _ _ _ (Hto Hnone)), Hh.
    reflexivity.
Qed.

End Extras.

(** X15: the store keys of the upgrade module do not collide: no key made
    of [DoneByte] and a plan name is the plan key or the key of the
    upgraded client, these two differ, and none of the three is a prefix of
    another of them. *)
Theorem X15_upgrade_keys_do_not_collide (name : list Byte.byte) :
  UpgradeKeys.DoneByte :: name <> UpgradeKeys.PlanKey
  /\ UpgradeKeys.DoneByte :: name <> UpgradeKeys.UpgradedClientKey
  /\ UpgradeKeys.PlanKey <> UpgradeKeys.UpgradedClientKey
  /\ UpgradeKeys.isPrefix UpgradeKeys.PlanKey UpgradeKeys.UpgradedClientKey = false
  /\ UpgradeKeys.isPrefix UpgradeKeys.UpgradedClientKey UpgradeKeys.PlanKey = false
  /\ UpgradeKeys.isPrefix UpgradeKeys.PlanKey (UpgradeKeys.DoneByte :: name) = false
  /\ UpgradeKeys.isPrefix UpgradeKeys.UpgradedClientKey
       (UpgradeKeys.DoneByte :: name) = false.
Proof.
  repeat split; try reflexivity; intros Heq; discriminate Heq.
Qed.

Section FrozenHeightLemmas.
Context `{Collaborators}.

(** The verdict of the per-header check reads three fields of the client
    state: the unbonding period, the chain identifier and the trust
    level. *)
Lemma run_checkMisbehaviourHeader_fields
    (f f' : Frame) (consState : ConsensusState) (header : Header) (now : Time) :
  UnbondingPeriod (cs_local f) = UnbondingPeriod (cs_local f') ->
  ChainId (cs_local f) = ChainId (cs_local f') ->
  TrustLevel (cs_local f) = TrustLevel (cs_local f') ->
  snd (run_checkMisbehaviourHeader f consState header now)
    = snd (run_checkMisbehaviourHeader f' consState header now).
Proof.
  intros Hu Hc Ht. rewrite !checkMisbehaviourHeader_unfold. cbv zeta.
  unfold verifiedChainID, GetChainID. rewrite Hu, Hc, Ht.
  destruct (ValidatorSetFromProto (TrustedValidators header)); [reflexivity |].
  destruct (CommitFromProto (Commit header)); [reflexivity |].
  destruct (checkTrustedHeader header consState); [reflexivity |].
  destruct (Time_Sub now (Timestamp consState) >=? UnbondingPeriod (cs_local f'));
    reflexivity.
Qed.

Lemma verifyBoth_result
    (f : Frame) (ctx : SdkContext) (m : Misbehaviour)
    (consState1 consState2 : ConsensusState) :
  snd (verifyBoth f ctx m consState1 consState2) =
  match snd (run_checkMisbehaviourHeader f consState1 (Header1 m) (BlockTime ctx)) with
  | Some err => (None, Some (Wrap err (MsgVerifyingHeaderFailed Header1Id)))
  | None =>
      match snd (run_checkMisbehaviourHeader f consState2 (Header2 m)
                   (BlockTime ctx)) with
      | Some err => (None, Some (Wrap err (MsgVerifyingHeaderFailed Header2Id)))
      | None => (Some (set_FrozenHeight (Misbehaviour_GetHeight m) (cs_local f)), None)
      end
  end.
Proof.
  unfold verifyBoth. cbv zeta.
  destruct (checkMisbehaviourHeader_frame f consState1 (Header1 m) (BlockTime ctx))
    as [Hcs1 _].
  set (r1 := run_checkMisbehaviourHeader f consState1 (Header1 m) (BlockTime ctx)) in *.
  destruct (snd r1); [reflexivity |].
  rewrite <- (run_checkMisbehaviourHeader_verdict (fst r1) f _ _ _ Hcs1).
  destruct (checkMisbehaviourHeader_frame (fst r1) consState2 (Header2 m)
              (BlockTime ctx)) as [Hcs2 _].
  set (r2 := run_checkMisbehaviourHeader (fst r1) consState2 (Header2 m)
               (BlockTime ctx)) in *.
  destruct (snd r2); [reflexivity |].
  cbn [snd cs_local]. rewrite Hcs2, Hcs1. reflexivity.
Qed.

End FrozenHeightLemmas.

Section ExtrasOnState.
Context `{Collaborators}.

(** X16: the frozen height of the client only matters for the frozen test:
    on two client states that differ in their frozen height alone and that
    both pass the frozen test for a misbehaviour, the call returns the same
    result; a client frozen above the misbehaviour ends in the state in
    which a client that was never frozen ends. *)
Theorem X16_frozen_height_only_in_frozen_test
    (cs : ClientState) (h0 : Height) (ctx : SdkContext) (cdc : BinaryMarshaler)
    (clientStore : KVStore) (m : Misbehaviour) :
  IsFrozen cs && Height_LTE (FrozenHeight cs) (Misbehaviour_GetHeight m) = false ->
  IsFrozen (set_FrozenHeight h0 cs)
    && Height_LTE h0 (Misbehaviour_GetHeight m) = false ->
  snd (CheckMisbehaviourAndUpdateState (set_FrozenHeight h0 cs) ctx cdc clientStore
         (TendermintMisbehaviour m))
  = snd (CheckMisbehaviourAndUpdateState cs ctx cdc clientStore
           (TendermintMisbehaviour m)).
Proof.
  intros Hguard Hguard'.
  rewrite !CheckMisbehaviourAndUpdateState_unfold. cbv zeta.
  rewrite set_FrozenHeight_FrozenHeight, Hguard, Hguard'.
  destruct (GetConsensusState clientStore cdc (TrustedHeight (Header1 m)))
    as [e1 | c1]; [reflexivity |].
  destruct (GetConsensusState clientStore cdc (TrustedHeight (Header2 m)))
    as [e2 | c2]; [reflexivity |].
  assert (Hage : ageBlocks (set_FrozenHeight h0 cs) m = ageBlocks cs m)
    by reflexivity.
  rewrite Hage.
  destruct (tooOld (ConsensusParams ctx)
              (Time_Sub (BlockTime ctx) (Misbehaviour_GetTime m)) (ageBlocks cs m));
    [reflexivity |].
  rewrite !verifyBoth_result.
  match goal with
  | |- context [run_checkMisbehaviourHeader ?fa _ (Header1 m) _] =>
      match goal with
      | |- _ = match snd (run_checkMisbehaviourHeader ?fb _ (Header1 m) _) with
                 | _ => _ end =>
          rewrite (run_checkMisbehaviourHeader_fields fa fb c1 (Header1 m))
            by reflexivity;
          rewrite (run_checkMisbehaviourHeader_fields fa fb c2 (Header2 m))
            by reflexivity
      end
  end.
  reflexivity.
Qed.

(** X17: the per-header check reports a malformed or mismatched header as
    such at any time, also past the unbonding period: a trusted validator
    set that does not decode gives the decoder's error, wrapped, and the
    commit is not decoded; a commit that does not decode gives its
    decoder's error, wrapped, and the trusted fields are not compared; a
    mismatch of the trusted fields gives the error of that comparison as it
    is, without a wrap, and the commit is not verified. *)
Theorem X17_malformed_header_reported_first
    (f : Frame) (consState : ConsensusState) (header : Header) (now : Time)
    (err : Error) :
  let r := run_checkMisbehaviourHeader f consState header now in
  (ValidatorSetFromProto (TrustedValidators header) = inl err ->
     r = (mkFrame _ (cs_local f)
            (events f ++ [EvCheckMisbehaviourHeader consState header;
                          EvValidatorSetFromProto]),
          Some (Wrap err MsgNotValidatorSet)))
  /\ (forall valset,
        ValidatorSetFromProto (TrustedValidators header) = inr valset ->
        CommitFromProto (Commit header) = inl err ->
        r = (mkFrame _ (cs_local f)
               (events f ++ [EvCheckMisbehaviourHeader consState header;
                             EvValidatorSetFromProto; EvCommitFromProto]),
             Some (Wrap err MsgNotCommit)))
  /\ (forall valset commit,
        ValidatorSetFromProto (TrustedValidators header) = inr valset ->
        CommitFromProto (Commit header) = inr commit ->
        checkTrustedHeader header consState = Some err ->
        r = (mkFrame _ (cs_local f)
               (events f ++ [EvCheckMisbehaviourHeader consState header;
                             EvValidatorSetFromProto; EvCommitFromProto;
                             EvCheckTrustedHeader]),
             Some err)).
Proof.
  intros r. subst r. rewrite checkMisbehaviourHeader_unfold. cbv zeta.
  split; [| split].
  - intros Hv. rewrite Hv. reflexivity.
  - intros valset Hv Hc. rewrite Hv, Hc, <- app_assoc. reflexivity.
  - intros valset commit Hv Hc Ht. rewrite Hv, Hc, Ht, <- app_assoc. reflexivity.
Qed.

End ExtrasOnState.

(** * The further theorems on the instance [Sim] *)

Import SimCases.

(** The store is empty: the first lookup fails and ends the call. *)
Lemma X6_witness :
  CheckMisbehaviourAndUpdateState client lateCtx tt emptyStore
    (TendermintMisbehaviour (misbehaviourAt (mkHeight 1 95) 70))
  = (mkFrame _ client [EvGetConsensusState (mkHeight 1 90)],
     (None, Some (Wrap (ErrCollaborator "consensus state not found")
                    (MsgNoTrustedConsensusState Header1Id)))).
Proof.
  destruct (X6_missing_trusted_consensus_state (H0 := collaborators)
              client lateCtx tt emptyStore (misbehaviourAt (mkHeight 1 95) 70)
              (ErrCollaborator "consensus state not found") eq_refl)
    as [Hfirst _].
  exact (proj1 (Hfirst eq_refl)).
Defined.

(** The first commit is signed by 60 of 100, the second by 70. *)
Lemma X7_witness :
  snd (CheckMisbehaviourAndUpdateState client ctx tt store
         (TendermintMisbehaviour
            (misbehaviourTrusting (mkHeight 1 90) (mkHeight 1 90) 60 70)))
  = (None,
     Some (Wrap (Wrap ErrInvalidMisbehaviour
                   (MsgTooMuchChange
                      (ErrCollaborator "insufficient trusted voting power")))
             (MsgVerifyingHeaderFailed Header1Id))).
Proof.
  destruct (X7_first_failing_header_reported (H0 := collaborators)
              client ctx tt store
              (misbehaviourTrusting (mkHeight 1 90) (mkHeight 1 90) 60 70)
              trusted trusted
              (Wrap ErrInvalidMisbehaviour
                 (MsgTooMuchChange
                    (ErrCollaborator "insufficient trusted voting power")))
              eq_refl eq_refl eq_refl eq_refl)
    as [Hfirst _].
  rewrite (Hfirst eq_refl). reflexivity.
Defined.

Lemma X8_witness :
  isWrapped
    (Wrap (Wrap ErrInvalidMisbehaviour
             (MsgTooMuchChange
                (ErrCollaborator "insufficient trusted voting power")))
       (MsgVerifyingHeaderFailed Header1Id)) = true.
Proof.
  exact (X8_errors_are_wrapped (H0 := collaborators) client ctx tt store
           (TendermintMisbehaviour (misbehaviourAt (mkHeight 1 95) 60)) _ eq_refl).
Defined.

(** The client of "testchain", which is not in version format. *)
Lemma X9_witness :
  IsEpochFormat (GetChainID plainClient) = false
  /\ snd (run_checkMisbehaviourHeader (emptyFrame plainClient) trusted
            (header (mkHeight 1 95) "testchain" 70) (BlockTime ctx)) = None
  /\ events (fst (run_checkMisbehaviourHeader (emptyFrame plainClient) trusted
                    (header (mkHeight 1 95) "testchain" 70) (BlockTime ctx)))
     = [EvCheckMisbehaviourHeader trusted (header (mkHeight 1 95) "testchain" 70);
        EvValidatorSetFromProto; EvCommitFromProto; EvCheckTrustedHeader;
        EvVerifyCommitLightTrusting "testchain"].
Proof.
  split; [reflexivity |].
  exact (X9_plain_chain_id_not_substituted (H0 := collaborators)
           (emptyFrame plainClient) trusted
           (header (mkHeight 1 95) "testchain" 70) (BlockTime ctx)
           100 ("testchain"%string, 70)
           eq_refl eq_refl eq_refl eq_refl eq_refl).
Defined.

(** The misbehaviour at (1, 95) freezes the client; submitted again, it is
    refused. *)
Lemma X10_witness :
  CheckMisbehaviourAndUpdateState (frozenAt (mkHeight 1 95)) ctx tt store
    (TendermintMisbehaviour (misbehaviourAt (mkHeight 1 95) 70))
  = (mkFrame _ (frozenAt (mkHeight 1 95)) [],
     (None, Some (Wrap ErrInvalidMisbehaviour
                    (MsgAlreadyFrozen (mkHeight 1 95) (mkHeight 1 95))))).
Proof.
  exact (X10_resubmission_rejected (H0 := collaborators)
           client (frozenAt (mkHeight 1 95)) ctx ctx tt tt store store
           (misbehaviourAt (mkHeight 1 95) 70) (misbehaviourAt (mkHeight 1 95) 70)
           eq_refl eq_refl eq_refl).
Defined.

(** Accepted two hours after the headers, hence one hour after them. *)
Lemma X11_witness :
  snd (CheckMisbehaviourAndUpdateState client earlyCtx tt store
         (TendermintMisbehaviour (misbehaviourAt (mkHeight 1 95) 70)))
  = snd (CheckMisbehaviourAndUpdateState client ctx tt store
           (TendermintMisbehaviour (misbehaviourAt (mkHeight 1 95) 70))).
Proof.
  assert (Hle : BlockTime earlyCtx <= BlockTime ctx) by (vm_compute; discriminate).
  exact (X11_accepted_at_earlier_block_time (H0 := collaborators)
           client earlyCtx ctx tt store
           (TendermintMisbehaviour (misbehaviourAt (mkHeight 1 95) 70))
           Hle eq_refl eq_refl).
Defined.

(** Expired 504 hours after the trusted consensus state, hence 600 hours
    after it. *)
Lemma X12_witness :
  exists elapsed',
    snd (run_checkMisbehaviourHeader (emptyFrame client) trusted
           (header (mkHeight 1 95) "testchain-1" 70) (1600 * hour))
    = Some (Wrap ErrUnbondingPeriodExpired
              (MsgUnbondingPeriod elapsed' (UnbondingPeriod client))).
Proof.
  assert (Hle : 1504 * hour <= 1600 * hour) by (vm_compute; discriminate).
  exact (X12_expired_stays_expired (H0 := collaborators)
           (emptyFrame client) trusted (header (mkHeight 1 95) "testchain-1" 70)
           (1504 * hour) (1600 * hour) (504 * hour) Hle eq_refl).
Defined.

(** Stale 49 hours after the headers, hence 90 hours after them. *)
Lemma X13_witness :
  StaleMisbehaviour
    (snd (CheckMisbehaviourAndUpdateState client laterCtx tt store
            (TendermintMisbehaviour (misbehaviourAt (mkHeight 1 95) 70)))).
Proof.
  assert (Hle : BlockTime lateCtx <= BlockTime laterCtx)
    by (vm_compute; discriminate).
  assert (Hstale : StaleMisbehaviour
                     (snd (CheckMisbehaviourAndUpdateState client lateCtx tt store
                             (TendermintMisbehaviour
                                (misbehaviourAt (mkHeight 1 95) 70)))))
    by (eexists _, _, _, _; reflexivity).
  exact (X13_stale_stays_stale (H0 := collaborators) client lateCtx laterCtx tt
           store (TendermintMisbehaviour (misbehaviourAt (mkHeight 1 95) 70))
           Hle eq_refl Hstale).
Defined.

(** Headers that trust (1, 90) and (1, 80), in either order. *)
Lemma X14_witness :
  snd (CheckMisbehaviourAndUpdateState client ctx tt store2
         (TendermintMisbehaviour
            (swapHeaders
               (misbehaviourTrusting (mkHeight 1 90) (mkHeight 1 80) 70 70))))
  = snd (CheckMisbehaviourAndUpdateState client ctx tt store2
           (TendermintMisbehaviour
              (misbehaviourTrusting (mkHeight 1 90) (mkHeight 1 80) 70 70))).
Proof.
  destruct (X14_header_order_irrelevant (H0 := collaborators) client ctx tt store2
              (misbehaviourTrusting (mkHeight 1 90) (mkHeight 1 80) 70 70)
              eq_refl eq_refl)
    as [_ Hsame].
  exact (Hsame eq_refl).
Defined.

(** Frozen at (1, 97) or never frozen: the misbehaviour at (1, 95) gives
    the same result. *)
Lemma X16_witness :
  snd (CheckMisbehaviourAndUpdateState (frozenAt (mkHeight 1 97)) ctx tt store
         (TendermintMisbehaviour (misbehaviourAt (mkHeight 1 95) 70)))
  = snd (CheckMisbehaviourAndUpdateState client ctx tt store
           (TendermintMisbehaviour (misbehaviourAt (mkHeight 1 95) 70))).
Proof.
  exact (X16_frozen_height_only_in_frozen_test (H0 := collaborators)
           client (mkHeight 1 97) ctx tt store
           (misbehaviourAt (mkHeight 1 95) 70) eq_refl eq_refl).
Defined.
